(** * The plugin-registry validator ([scripts/validate.js])

    A shallow embedding of the validation script and of the two platform
    services it calls ([Date] and [URL] of the JavaScript runtime), followed
    by the properties of the validator.

    The script exists in two generations.  The functions that are the same
    in both are embedded once; the two [validateBaseFields] and the two
    [main] live in the modules [Basic] and [Extended]. *)

From Stdlib Require Import List Arith NArith Bool Ascii String Lia Permutation.
Import ListNotations.

Set Implicit Arguments.

(* ================================================================= *)
(** ** JavaScript strings *)

(** A JavaScript string is a sequence of UTF-16 code units; [.length] counts
    code units. *)
Definition code_unit := N.
Definition jsstring := list code_unit.

Definition ch (a : ascii) : code_unit := N_of_ascii a.

(** An ASCII literal as a JavaScript string. *)
Definition js (s : string) : jsstring := map ch (list_ascii_of_string s).

Fixpoint str_eqb (s t : jsstring) : bool :=
  match s, t with
  | [], [] => true
  | a :: s', b :: t' => N.eqb a b && str_eqb s' t'
  | _, _ => false
  end.

(** [s.startsWith(p)], returning what follows the prefix. *)
Fixpoint strip_prefix (p s : jsstring) : option jsstring :=
  match p, s with
  | [], _ => Some s
  | a :: p', b :: s' => if N.eqb a b then strip_prefix p' s' else None
  | _ :: _, [] => None
  end.

(** [s.replace(pat, rep)] with a string pattern: the first occurrence only.
    The replacement strings of the script hold no [$] pattern. *)
Fixpoint replace (pat rep s : jsstring) : jsstring :=
  match strip_prefix pat s with
  | Some rest => rep ++ rest
  | None =>
      match s with
      | [] => []
      | c :: s' => c :: replace pat rep s'
      end
  end.

Definition is_digit (c : code_unit) : bool := (48 <=? c)%N && (c <=? 57)%N.

(* ================================================================= *)
(** ** The regular expression of the timestamp *)

(** The only regular expression of the script is a sequence of [\d] and
    literal characters between [^] and [$]. *)
Inductive atom : Type :=
| Digit
| Lit (c : code_unit).

Fixpoint regex_test (r : list atom) (s : jsstring) {struct s} : bool :=
  match r, s with
  | [], [] => true
  | Digit :: r', c :: s' => is_digit c && regex_test r' s'
  | Lit a :: r', c :: s' => N.eqb a c && regex_test r' s'
  | _, _ => false
  end.

(** [/^\d{4}-\d{2}-\d{2} \d{2}:\d{2}:\d{2}$/] *)
Definition time_regex : list atom :=
  [Digit; Digit; Digit; Digit; Lit (ch "-"); Digit; Digit; Lit (ch "-");
   Digit; Digit; Lit (ch " "); Digit; Digit; Lit (ch ":"); Digit; Digit;
   Lit (ch ":"); Digit; Digit].

(* ================================================================= *)
(** ** The platform's [Date] *)

(** The script runs on Node, whose engine parses the string given to
    [new Date].  [isValidTimeFormat] hands it strings of one shape only,
    [YYYY-MM-DDTHH:mm:ss], so that form of the ECMAScript date-time format is
    what is modelled; any other string is outside the model and yields the
    invalid date. *)
Module Date.

Record fields : Type := mk {
  year : N; month : N; day : N;
  hours : N; minutes : N; seconds : N
}.

(** A token of exactly [n] digits. *)
Fixpoint fixed_number (n : nat) (acc : N) (s : jsstring) : option (N * jsstring) :=
  match n with
  | O =>
      match s with
      | c :: _ => if is_digit c then None else Some (acc, s)
      | [] => Some (acc, s)
      end
  | S n' =>
      match s with
      | c :: s' =>
          if is_digit c then fixed_number n' (10 * acc + (c - 48))%N s' else None
      | [] => None
      end
  end.

Definition symbol (a : ascii) (s : jsstring) : option jsstring :=
  match s with
  | c :: s' => if N.eqb c (ch a) then Some s' else None
  | [] => None
  end.

Definition IsMonth (x : N) : bool := (1 <=? x)%N && (x <=? 12)%N.
Definition IsDay (x : N) : bool := (1 <=? x)%N && (x <=? 31)%N.
Definition IsMinute (x : N) : bool := (x <=? 59)%N.
Definition IsSecond (x : N) : bool := (x <=? 59)%N.

(** The date part.  A month or a day out of range makes the engine leave
    the ISO grammar for its legacy grammar, which refuses the [T] that
    follows the numbers: the outcome is the invalid date either way. *)
Definition parse_day (s : jsstring) : option (N * N * N * jsstring) :=
  match fixed_number 4 0 s with
  | None => None
  | Some (y, s1) =>
  match symbol "-" s1 with
  | None => None
  | Some s2 =>
  match fixed_number 2 0 s2 with
  | None => None
  | Some (mo, s3) =>
  if negb (IsMonth mo) then None else
  match symbol "-" s3 with
  | None => None
  | Some s4 =>
  match fixed_number 2 0 s4 with
  | None => None
  | Some (d, s5) =>
  if negb (IsDay d) then None else Some (y, mo, d, s5)
  end end end end end.

(** The time part: [24:00:00] is allowed, no other time starting with 24. *)
Definition parse_time (s : jsstring) : option (N * N * N * jsstring) :=
  match symbol "T" s with
  | None => None
  | Some s1 =>
  match fixed_number 2 0 s1 with
  | None => None
  | Some (h, s2) =>
  if negb (h <=? 24)%N then None else
  let hour_is_24 := (h =? 24)%N in
  match symbol ":" s2 with
  | None => None
  | Some s3 =>
  match fixed_number 2 0 s3 with
  | None => None
  | Some (mi, s4) =>
  if negb (IsMinute mi) || (hour_is_24 && (0 <? mi)%N) then None else
  match symbol ":" s4 with
  | None => None
  | Some s5 =>
  match fixed_number 2 0 s5 with
  | None => None
  | Some (sec, s6) =>
  if negb (IsSecond sec) || (hour_is_24 && (0 <? sec)%N) then None
  else Some (h, mi, sec, s6)
  end end end end end end.

(** [new Date(s)]: the fields the engine builds the time value from, or
    [None] for the invalid date, whose time value is NaN.  The day is not
    compared with the length of the month: a day past the end of the month
    carries over into the next month. *)
Definition new (s : jsstring) : option fields :=
  match parse_day s with
  | None => None
  | Some (y, mo, d, s1) =>
  match parse_time s1 with
  | None => None
  | Some (h, mi, sec, s2) =>
  match s2 with
  | [] => Some (mk y mo d h mi sec)
  | _ :: _ => None
  end end end.

(** [isNaN(date)] *)
Definition isNaN (d : option fields) : bool :=
  match d with
  | Some _ => false
  | None => true
  end.

End Date.

(* ================================================================= *)
(** ** The platform's [URL] *)

(** What the runtime contributes beyond the algorithms written out below:
    the Unicode processing (IDNA) of a host name that is not plain ASCII.
    It is given the host as written and answers with its ASCII form, or
    refuses it. *)
Class Runtime : Type := {
  domain_to_ASCII : jsstring -> option jsstring
}.

(** [new URL(s)] with one argument runs the basic URL parser of the URL
    Standard without a base URL.  The states that can fail are written out;
    path, query and fragment never fail and are kept as the unparsed rest. *)
Module URL.

Inductive host : Type :=
| Domain (d : jsstring)
| IPv4 (address : N)
| IPv6 (literal : jsstring)
| OpaqueHost (h : jsstring)
| EmptyHost.

(** [host = None] is the null host: the URL has no authority. *)
Record record : Type := mk {
  scheme : jsstring;
  host_of : option host;
  port : option N;
  rest : jsstring
}.

Definition between (lo hi c : N) : bool := (lo <=? c)%N && (c <=? hi)%N.
Definition is_alpha (c : code_unit) : bool := between 65 90 c || between 97 122 c.
Definition to_lower (c : code_unit) : code_unit :=
  if between 65 90 c then (c + 32)%N else c.
Definition is_ch (a : ascii) (c : code_unit) : bool := N.eqb c (ch a).
Definition one_of (s : string) (c : code_unit) : bool := existsb (N.eqb c) (js s).

Definition hex_val (c : code_unit) : option N :=
  if is_digit c then Some (c - 48)%N
  else if between 65 70 c then Some (c - 55)%N
  else if between 97 102 c then Some (c - 87)%N
  else None.

(** *** Preprocessing *)

Definition c0_or_space (c : code_unit) : bool := (c <=? 32)%N.
Definition tab_or_newline (c : code_unit) : bool :=
  N.eqb c 9 || N.eqb c 10 || N.eqb c 13.

Fixpoint drop_while (f : code_unit -> bool) (s : jsstring) : jsstring :=
  match s with
  | c :: s' => if f c then drop_while f s' else s
  | [] => []
  end.

Definition preprocess (s : jsstring) : jsstring :=
  let s1 := drop_while c0_or_space s in
  let s2 := rev (drop_while c0_or_space (rev s1)) in
  filter (fun c => negb (tab_or_newline c)) s2.

(** *** Scheme start state, scheme state, no scheme state *)

Definition is_scheme_char (c : code_unit) : bool :=
  is_alpha c || is_digit c || one_of "+-." c.

(** Without a base URL the no scheme state is a failure. *)
Fixpoint scheme_state (buffer s : jsstring) : option (jsstring * jsstring) :=
  match s with
  | [] => None
  | c :: s' =>
      if is_scheme_char c then scheme_state (buffer ++ [to_lower c]) s'
      else if is_ch ":" c then Some (buffer, s')
      else None
  end.

Definition scheme_start_state (s : jsstring) : option (jsstring * jsstring) :=
  match s with
  | c :: s' => if is_alpha c then scheme_state [to_lower c] s' else None
  | [] => None
  end.

Definition is_special (sch : jsstring) : bool :=
  existsb (fun t => str_eqb sch (js t)) ["ftp"; "file"; "http"; "https"; "ws"; "wss"]%string.

Definition default_port (sch : jsstring) : option N :=
  if str_eqb sch (js "ftp") then Some 21%N
  else if str_eqb sch (js "http") || str_eqb sch (js "ws") then Some 80%N
  else if str_eqb sch (js "https") || str_eqb sch (js "wss") then Some 443%N
  else None.

(** *** Host parsing *)

Definition forbidden_host_code_point (c : code_unit) : bool :=
  N.eqb c 0 || N.eqb c 9 || N.eqb c 10 || N.eqb c 13 || N.eqb c 32
  || one_of "#/:<>?@[\]^|" c.

Definition forbidden_domain_code_point (c : code_unit) : bool :=
  forbidden_host_code_point c || (c <=? 31)%N || is_ch "%" c || N.eqb c 127.

(** Strictly split on a separator. *)
Fixpoint split (sep : code_unit) (cur : jsstring) (s : jsstring) : list jsstring :=
  match s with
  | [] => [cur]
  | c :: s' => if N.eqb c sep then cur :: split sep [] s' else split sep (cur ++ [c]) s'
  end.

(** The IPv4 number parser: decimal, [0x] hexadecimal or [0] octal. *)
Definition radix_digit (R : N) (c : code_unit) : option N :=
  match hex_val c with
  | Some v => if (v <? R)%N then Some v else None
  | None => None
  end.

Fixpoint parse_radix (R acc : N) (s : jsstring) : option N :=
  match s with
  | [] => Some acc
  | c :: s' =>
      match radix_digit R c with
      | Some v => parse_radix R (R * acc + v)%N s'
      | None => None
      end
  end.

Definition ipv4_number (s : jsstring) : option N :=
  match s with
  | [] => None
  | c1 :: c2 :: s' =>
      if is_ch "0" c1 && (is_ch "x" c2 || is_ch "X" c2) then parse_radix 16 0 s'
      else if is_ch "0" c1 then parse_radix 8 0 (c2 :: s')
      else parse_radix 10 0 s
  | [_] => parse_radix 10 0 s
  end.

Definition drop_last_empty (parts : list jsstring) : list jsstring :=
  match rev parts with
  | [] :: ((_ :: _) as r) => rev r
  | _ => parts
  end.

Definition ends_in_a_number (s : jsstring) : bool :=
  match rev (split (ch ".") [] s) with
  | [[]] => false
  | r =>
      match (match r with [] :: t => t | _ => r end) with
      | [] => false
      | last :: _ =>
          (negb (str_eqb last []) && forallb is_digit last)
          || match ipv4_number last with Some _ => true | None => false end
      end
  end.

Fixpoint ipv4_numbers (parts : list jsstring) : option (list N) :=
  match parts with
  | [] => Some []
  | p :: ps =>
      match ipv4_number p, ipv4_numbers ps with
      | Some n, Some ns => Some (n :: ns)
      | _, _ => None
      end
  end.

(** The last number fills the remaining bytes; the others are one byte each. *)
Fixpoint ipv4_sum (counter : N) (numbers : list N) : option N :=
  match numbers with
  | [] => None
  | [last] => Some last
  | n :: ns =>
      if (255 <? n)%N then None
      else option_map (N.add (n * 256 ^ (3 - counter))) (ipv4_sum (counter + 1) ns)
  end.

Definition ipv4_parse (s : jsstring) : option N :=
  let parts := drop_last_empty (split (ch ".") [] s) in
  if Nat.ltb 4 (List.length parts) then None
  else
    match ipv4_numbers parts with
    | None => None
    | Some numbers =>
        match rev numbers with
        | [] => None
        | last :: _ =>
            if (256 ^ (5 - N.of_nat (List.length numbers)) <=? last)%N then None
            else ipv4_sum 0 numbers
        end
    end.

(** The IPv6 parser, as far as it decides whether the literal is an address:
    the number of pieces, the one compression and an embedded IPv4 tail. *)
Fixpoint take_hex (n : nat) (s : jsstring) : nat * jsstring :=
  match n, s with
  | S n', c :: s' =>
      match hex_val c with
      | Some _ => let (k, r) := take_hex n' s' in (S k, r)
      | None => (O, s)
      end
  | _, _ => (O, s)
  end.

(** One decimal piece of the embedded IPv4 address: no leading zero, at
    most 255. *)
Fixpoint ipv4_piece (acc : option N) (s : jsstring) : option (option N * jsstring) :=
  match s with
  | c :: s' =>
      if is_digit c then
        match acc with
        | None => ipv4_piece (Some (c - 48)%N) s'
        | Some 0%N => None
        | Some v =>
            let v' := (v * 10 + (c - 48))%N in
            if (255 <? v')%N then None else ipv4_piece (Some v') s'
        end
      else Some (acc, s)
  | [] => Some (acc, s)
  end.

(** The dotted tail.  Every turn of the loop consumes at least one
    character, so the length of the input, plus one, is fuel enough. *)
Fixpoint ipv4_in_ipv6 (fuel : nat) (numbersSeen : nat) (s : jsstring) : bool :=
  match fuel with
  | O => false
  | S fuel' =>
      match s with
      | [] => Nat.eqb numbersSeen 4
      | c :: s' =>
          let after_dot :=
            if Nat.ltb 0 numbersSeen then
              if is_ch "." c && Nat.ltb numbersSeen 4 then Some s' else None
            else Some s in
          match after_dot with
          | None => false
          | Some [] => false
          | Some ((d :: _) as s1) =>
              if negb (is_digit d) then false
              else
                match ipv4_piece None s1 with
                | None => false
                | Some (_, s2) => ipv4_in_ipv6 fuel' (S numbersSeen) s2
                end
          end
      end
  end.

(** The pieces.  Here too every turn consumes at least one character. *)
Fixpoint ipv6_pieces (fuel : nat) (pieceIndex : nat) (compress : bool) (s : jsstring) : bool :=
  match fuel with
  | O => false
  | S fuel' =>
      match s with
      | [] => compress || Nat.eqb pieceIndex 8
      | c :: s' =>
          if Nat.eqb pieceIndex 8 then false
          else if is_ch ":" c then
            if compress then false else ipv6_pieces fuel' (S pieceIndex) true s'
          else
            let (len, r) := take_hex 4 s in
            match r with
            | [] => compress || Nat.eqb (S pieceIndex) 8
            | c' :: r' =>
                if is_ch "." c' then
                  if Nat.eqb len 0 then false
                  else if Nat.ltb 6 pieceIndex then false
                  else ipv4_in_ipv6 (S (List.length s)) 0 s
                       && (compress || Nat.eqb (pieceIndex + 2) 8)
                else if is_ch ":" c' then
                  match r' with
                  | [] => false
                  | _ :: _ => ipv6_pieces fuel' (S pieceIndex) compress r'
                  end
                else false
            end
      end
  end.

Definition ipv6_parse (s : jsstring) : bool :=
  match s with
  | c :: s' =>
      if is_ch ":" c then
        match s' with
        | c2 :: s'' =>
            if is_ch ":" c2 then ipv6_pieces (S (List.length s)) 1 true s'' else false
        | [] => false
        end
      else ipv6_pieces (S (List.length s)) 0 false s
  | [] => false
  end.

(** Percent-decoding of an ASCII host; [None] when the host, as written or
    once decoded, leaves ASCII. *)
Fixpoint percent_decode (s : jsstring) : option jsstring :=
  match s with
  | [] => Some []
  | c :: s' =>
      if (127 <? c)%N then None
      else
        let literal := option_map (cons c) (percent_decode s') in
        if is_ch "%" c then
          match s' with
          | h1 :: h2 :: s'' =>
              match hex_val h1, hex_val h2 with
              | Some a, Some b =>
                  let byte := (16 * a + b)%N in
                  if (127 <? byte)%N then None
                  else option_map (cons byte) (percent_decode s'')
              | _, _ => literal
              end
          | _ => literal
          end
        else literal
  end.

Definition is_punycode_label (l : jsstring) : bool :=
  match strip_prefix (js "xn--") (map to_lower (firstn 4 l)) with
  | Some _ => true
  | None => false
  end.

Section Host.
Context {RT : Runtime}.

(** Domain to ASCII: lowercasing for an ASCII name with no [xn--] label,
    the runtime's Unicode processing otherwise; an empty result is a
    failure. *)
Definition domain_to_ascii (input : jsstring) : option jsstring :=
  let result :=
    match percent_decode input with
    | Some domain =>
        if existsb is_punycode_label (split (ch ".") [] domain)
        then domain_to_ASCII input
        else Some (map to_lower domain)
    | None => domain_to_ASCII input
    end in
  match result with
  | Some [] => None
  | r => r
  end.

(** The host parser. *)
Definition host_parse (input : jsstring) (isOpaque : bool) : option host :=
  match input with
  | 91%N :: inner =>
      match rev inner with
      | 93%N :: r => if ipv6_parse (rev r) then Some (IPv6 (rev r)) else None
      | _ => None
      end
  | _ =>
      if isOpaque then
        if existsb forbidden_host_code_point input then None
        else Some (OpaqueHost input)
      else
        match domain_to_ascii input with
        | None => None
        | Some asciiDomain =>
            if existsb forbidden_domain_code_point asciiDomain then None
            else if ends_in_a_number asciiDomain
                 then option_map IPv4 (ipv4_parse asciiDomain)
                 else Some (Domain asciiDomain)
        end
  end.

(** *** Authority, host and port states *)

(** Where the authority ends: at the end of the input, [/], [?], [#], and
    for a special scheme also at a backslash. *)
Definition ends_authority (special : bool) (c : code_unit) : bool :=
  one_of "/?#" c || (special && is_ch "\" c).

Fixpoint span_authority (special : bool) (s : jsstring) : jsstring * jsstring :=
  match s with
  | [] => ([], [])
  | c :: s' =>
      if ends_authority special c then ([], s)
      else let (a, r) := span_authority special s' in (c :: a, r)
  end.

(** Authority state: what follows the last [@] goes to the host state; an
    [@] with nothing after it is a failure. *)
Fixpoint after_last_at (seen : bool) (cur : jsstring) (s : jsstring) : bool * jsstring :=
  match s with
  | [] => (seen, cur)
  | c :: s' =>
      if is_ch "@" c then after_last_at true [] s'
      else after_last_at seen (cur ++ [c]) s'
  end.

(** Host state: the buffer runs to the first [:] outside brackets. *)
Fixpoint span_host (insideBrackets : bool) (s : jsstring) : jsstring * option jsstring :=
  match s with
  | [] => ([], None)
  | c :: s' =>
      if is_ch ":" c && negb insideBrackets then ([], Some s')
      else
        let inside :=
          if is_ch "[" c then true
          else if is_ch "]" c then false
          else insideBrackets in
        let (h, p) := span_host inside s' in (c :: h, p)
  end.

Fixpoint decimal (acc : N) (s : jsstring) : option N :=
  match s with
  | [] => Some acc
  | c :: s' => if is_digit c then decimal (10 * acc + (c - 48))%N s' else None
  end.

(** Port state: digits only, at most 65535; the default port of the scheme
    is stored as the null port. *)
Definition port_state (sch : jsstring) (buffer : jsstring) : option (option N) :=
  match buffer with
  | [] => Some None
  | _ :: _ =>
      match decimal 0 buffer with
      | None => None
      | Some p =>
          if (65535 <? p)%N then None
          else
            match default_port sch with
            | Some d => if N.eqb d p then Some None else Some (Some p)
            | None => Some (Some p)
            end
      end
  end.

Definition authority_state (sch : jsstring) (s : jsstring) : option record :=
  let special := is_special sch in
  let (authority, tail) := span_authority special s in
  let (atSignSeen, hostport) := after_last_at false [] authority in
  if atSignSeen && str_eqb hostport [] then None
  else
    let (buffer, after_colon) := span_host false hostport in
    match after_colon with
    | Some portbuf =>
        if str_eqb buffer [] then None
        else
          match host_parse buffer (negb special) with
          | None => None
          | Some h =>
              match port_state sch portbuf with
              | None => None
              | Some p => Some (mk sch (Some h) p tail)
              end
          end
    | None =>
        if special && str_eqb buffer [] then None
        else
          match host_parse buffer (negb special) with
          | None => None
          | Some h => Some (mk sch (Some h) None tail)
          end
    end.

(** *** File states *)

Definition is_slash (c : code_unit) : bool := is_ch "/" c || is_ch "\" c.

Definition windows_drive_letter (buffer : jsstring) : bool :=
  match buffer with
  | [a; b] => is_alpha a && (is_ch ":" b || is_ch "|" b)
  | _ => false
  end.

Definition file_host_state (s : jsstring) : option record :=
  let (buffer, tail) := span_authority true s in
  if windows_drive_letter buffer then Some (mk (js "file") (Some EmptyHost) None s)
  else if str_eqb buffer [] then Some (mk (js "file") (Some EmptyHost) None tail)
  else
    match host_parse buffer false with
    | None => None
    | Some h =>
        let h' :=
          match h with
          | Domain d => if str_eqb d (js "localhost") then EmptyHost else h
          | _ => h
          end in
        Some (mk (js "file") (Some h') None tail)
    end.

Definition file_state (s : jsstring) : option record :=
  match s with
  | c1 :: c2 :: s' =>
      if is_slash c1 && is_slash c2 then file_host_state s'
      else Some (mk (js "file") (Some EmptyHost) None s)
  | _ => Some (mk (js "file") (Some EmptyHost) None s)
  end.

(** *** The parser *)

(** [new URL(input)]: [None] stands for the [TypeError] the constructor
    throws on failure. *)
Definition new (input : jsstring) : option record :=
  match scheme_start_state (preprocess input) with
  | None => None
  | Some (sch, s) =>
      if str_eqb sch (js "file") then file_state s
      else if is_special sch then authority_state sch (drop_while is_slash s)
      else
        match s with
        | 47%N :: 47%N :: s' => authority_state sch s'
        | _ => Some (mk sch None None s)
        end
  end.

End Host.

End URL.

(* ================================================================= *)
(** ** Format checkers *)

(** [isValidTimeFormat]: a [Date] object is always an instance of [Date], so
    the last line is decided by [isNaN]. *)
Definition isValidTimeFormat (time : jsstring) : bool :=
  if negb (regex_test time_regex time) then false
  else
    let date := Date.new (replace (js " ") (js "T") time) in
    true && negb (Date.isNaN date).

(** [isValidUrl]: the [try]/[catch] turns the constructor's exception into
    [false]. *)
Definition isValidUrl {RT : Runtime} (url : jsstring) : bool :=
  match URL.new url with
  | Some _ => true
  | None => false
  end.

(* ================================================================= *)
(** ** Plugin records *)

(** The registry is JSON shaped by the type declarations of the repository
    ([Base], [Npm], [Git], [App]); the validator does not assume that a
    property is there, so every property may be absent ([undefined], here
    [None]). *)
Definition value := option jsstring.

Module License.
Record t : Type := mk { name : value; url : value }.
End License.

Module Author.
Record t : Type := mk { name : value; home : value }.
End Author.

Module Repo.
Record t : Type := mk { type : value; url : value; branch : value }.
End Repo.

Module Plugin.
Record t : Type := mk {
  name : value;
  type : value;
  description : value;
  time : value;
  home : value;
  license : option License.t;
  author : option (list Author.t);
  repo : option (list Repo.t);
  files : option (list jsstring)
}.
End Plugin.

(** [!!v] for a string or [undefined]. *)
Definition truthy (v : value) : bool :=
  match v with
  | Some (_ :: _) => true
  | _ => false
  end.

(** [!!v] for an object or an array, or [undefined]. *)
Definition present {A : Type} (v : option A) : bool :=
  match v with
  | Some _ => true
  | None => false
  end.

(** [v === w], which is also how a [Set] and [includes] compare strings and
    [undefined]. *)
Definition same (v w : value) : bool :=
  match v, w with
  | Some s, Some t => str_eqb s t
  | None, None => true
  | _, _ => false
  end.

(** The string a value becomes when a string is expected. *)
Definition ToString (v : value) : jsstring :=
  match v with
  | Some s => s
  | None => js "undefined"
  end.

(** [list.includes(v)] *)
Definition includes (l : list string) (v : value) : bool :=
  existsb (fun t => same v (Some (js t))) l.

(** The truthiness of [plugin[field]]. *)
Definition has (plugin : Plugin.t) (field : string) : bool :=
  if String.eqb field "name" then truthy (Plugin.name plugin)
  else if String.eqb field "type" then truthy (Plugin.type plugin)
  else if String.eqb field "description" then truthy (Plugin.description plugin)
  else if String.eqb field "time" then truthy (Plugin.time plugin)
  else if String.eqb field "home" then truthy (Plugin.home plugin)
  else if String.eqb field "license" then present (Plugin.license plugin)
  else if String.eqb field "author" then present (Plugin.author plugin)
  else if String.eqb field "repo" then present (Plugin.repo plugin)
  else if String.eqb field "files" then present (Plugin.files plugin)
  else false.

(* ================================================================= *)
(** ** Errors *)

(** One constructor per message of the script, carrying what the message
    interpolates.  The two places that report an invalid plugin type use the
    same message, hence the same constructor. *)
Inductive error : Type :=
| MissingField (who : jsstring) (field : string)
| InvalidTimestamp (name : value)
| DescriptionTooLong (name : value)
| InvalidLicense (name : value)
| InvalidAuthors (name : value)
| InvalidRepositories (name : value)
| InvalidVariant (name : value) (type : value)
| InvalidHomepage (name : value)
| MissingAuthorName (name : value)
| InvalidAuthorHomepage (name : value)
| InvalidRepoKind (name : value) (type : value)
| InvalidRepoUrl (name : value)
| MissingFiles (name : value)
| InvalidFileUrl (name : value) (fileUrl : jsstring)
| DuplicateName (name : value)
| UnexpectedBranch (name : value)
| MissingBranch (name : value) (type : value)
| UnsupportedRepoType (type : value)
| RemoteFetchFailed (statusText : jsstring)
| RemoteManifestIncomplete (field : string)
| Rejected (message : jsstring)
| TypeError
| RepositoryCheckFailed (name : value) (url : value) (cause : error).

(** A statement either completes or throws. *)
Inductive completion (A : Type) : Type :=
| Normal (a : A)
| Throw (e : error).
Arguments Throw {A} e.

Definition bind {A B : Type} (c : completion A) (k : A -> completion B) : completion B :=
  match c with
  | Normal a => k a
  | Throw e => Throw e
  end.

Declare Scope js_scope.
Delimit Scope js_scope with js.
Notation "c1 ;; c2" := (bind c1 (fun _ => c2))
  (at level 61, right associativity) : js_scope.
Open Scope js_scope.

(** [if (violated) throw new Error(...)] *)
Definition check (violated : bool) (e : error) : completion unit :=
  if violated then Throw e else Normal tt.

(** [for (const x of l) body] *)
Fixpoint for_of {A : Type} (l : list A) (body : A -> completion unit) : completion unit :=
  match l with
  | [] => Normal tt
  | x :: l' => body x ;; for_of l' body
  end.

(** Iterating over, or reading a property of, [undefined] is a [TypeError]. *)
Definition defined {A : Type} (v : option A) : completion A :=
  match v with
  | Some a => Normal a
  | None => Throw TypeError
  end.

(** The literal of the message for a plugin without a name. *)
Definition unknown : jsstring := [26410; 30693]%N.

(** [plugin.name || unknown] *)
Definition name_or_unknown (plugin : Plugin.t) : jsstring :=
  if truthy (Plugin.name plugin) then ToString (Plugin.name plugin) else unknown.

(* ================================================================= *)
(** ** The validators common to both generations *)

Section Validators.
Context {RT : Runtime}.

Definition validateAuthor (plugin : Plugin.t) : completion unit :=
  bind (defined (Plugin.author plugin)) (fun authors =>
  for_of authors (fun author =>
    check (negb (truthy (Author.name author)))
          (MissingAuthorName (Plugin.name plugin)) ;;
    check (negb (truthy (Author.home author))
           || negb (isValidUrl (ToString (Author.home author))))
          (InvalidAuthorHomepage (Plugin.name plugin)))).

Definition validTypes : list string :=
  ["github"; "gitee"; "gitlab"; "gitcode"; "npm"]%string.

Definition validateRepo (plugin : Plugin.t) : completion unit :=
  bind (defined (Plugin.repo plugin)) (fun repos =>
  for_of repos (fun repo =>
    check (negb (includes validTypes (Repo.type repo)))
          (InvalidRepoKind (Plugin.name plugin) (Repo.type repo)) ;;
    check (negb (truthy (Repo.url repo))
           || negb (isValidUrl (ToString (Repo.url repo))))
          (InvalidRepoUrl (Plugin.name plugin)))).

Definition validateAppPlugin (plugin : Plugin.t) : completion unit :=
  match Plugin.files plugin with
  | None | Some [] => Throw (MissingFiles (Plugin.name plugin))
  | Some files =>
      for_of files (fun fileUrl =>
        check (negb (isValidUrl fileUrl))
              (InvalidFileUrl (Plugin.name plugin) fileUrl))
  end.

(** The [Set] of names seen so far, in insertion order. *)
Fixpoint unique_from (names : list value) (plugins : list Plugin.t) : completion unit :=
  match plugins with
  | [] => Normal tt
  | plugin :: rest =>
      if existsb (same (Plugin.name plugin)) names
      then Throw (DuplicateName (Plugin.name plugin))
      else unique_from (names ++ [Plugin.name plugin]) rest
  end.

Definition validateUniquePackages (plugins : list Plugin.t) : completion unit :=
  unique_from [] plugins.

(** The [if]/[else] chain on the plugin type that ends the body of the
    loop of [main], the same in both generations. *)
Definition validateVariant (plugin : Plugin.t) : completion unit :=
  if same (Plugin.type plugin) (Some (js "app")) then validateAppPlugin plugin
  else if same (Plugin.type plugin) (Some (js "git"))
          || same (Plugin.type plugin) (Some (js "npm")) then Normal tt
  else Throw (InvalidVariant (Plugin.name plugin) (Plugin.type plugin)).

End Validators.

(* ================================================================= *)
(** ** The first generation of the script *)

Module Basic.
Section Basic.
Context {RT : Runtime}.

Definition requiredFields : list string :=
  ["name"; "type"; "description"; "license"; "time"; "author"; "repo"]%string.

Definition validateBaseFields (plugin : Plugin.t) : completion unit :=
  for_of requiredFields (fun field =>
    check (negb (has plugin field))
          (MissingField (name_or_unknown plugin) field)) ;;
  check (negb (isValidTimeFormat (ToString (Plugin.time plugin))))
        (InvalidTimestamp (Plugin.name plugin)) ;;
  bind (defined (Plugin.description plugin)) (fun description =>
  check (Nat.ltb 50 (List.length description))
        (DescriptionTooLong (Plugin.name plugin)) ;;
  bind (defined (Plugin.license plugin)) (fun license =>
  check (negb (truthy (License.name license))
         || negb (truthy (License.url license))
         || negb (isValidUrl (ToString (License.url license))))
        (InvalidLicense (Plugin.name plugin)) ;;
  check (negb (present (Plugin.author plugin))
         || match Plugin.author plugin with Some [] => true | _ => false end)
        (InvalidAuthors (Plugin.name plugin)) ;;
  check (negb (present (Plugin.repo plugin))
         || match Plugin.repo plugin with Some [] => true | _ => false end)
        (InvalidRepositories (Plugin.name plugin)) ;;
  let type := ["github"; "gitee"; "gitcode"; "gitlab"; "npm"]%string in
  check (negb (includes type (Plugin.type plugin)))
        (InvalidVariant (Plugin.name plugin) (Plugin.type plugin)))).

(** The body of the loop of [main]: the validation of one record. *)
Definition validatePlugin (plugin : Plugin.t) : completion unit :=
  validateBaseFields plugin ;;
  validateAuthor plugin ;;
  validateRepo plugin ;;
  validateVariant plugin.

(** [main], from the parsed [plugins] on: [Normal] is the exit with status 0,
    [Throw e] the exit with status 1 after printing the message of [e]. *)
Definition main (plugins : list Plugin.t) : completion unit :=
  validateUniquePackages plugins ;;
  for_of plugins validatePlugin.

End Basic.
End Basic.

(* ================================================================= *)
(** ** The second generation: home page, branches and the remote check *)

Module Extended.

(** What [response.json()] gives: a rejection, [null] (whose properties
    cannot be read), or a value with a truthy or falsy [name] and
    [version]. *)
Inductive json : Type :=
| JsonRejected (message : jsstring)
| JsonNull
| JsonValue (name : bool) (version : bool).

(** What [fetch] gives: a rejection or a response. *)
Inductive fetched : Type :=
| FetchRejected (message : jsstring)
| Response (ok : bool) (statusText : jsstring) (body : json).

(** The requests issued so far, oldest first. *)
Definition trace := list jsstring.

(** An asynchronous function: it may issue requests, and completes or
    throws.  The requests are awaited one at a time. *)
Definition IO (A : Type) : Type := trace -> trace * completion A.

Definition ret {A : Type} (a : A) : IO A := fun t => (t, Normal a).

Definition lift {A : Type} (c : completion A) : IO A := fun t => (t, c).

Definition bindIO {A B : Type} (m : IO A) (k : A -> IO B) : IO B :=
  fun t =>
    match m t with
    | (t', Normal a) => k a t'
    | (t', Throw e) => (t', Throw e)
    end.

(** [try { m } catch (error) { throw wrap(error) }] *)
Definition try_catch {A : Type} (m : IO A) (wrap : error -> error) : IO A :=
  fun t =>
    match m t with
    | (t', Normal a) => (t', Normal a)
    | (t', Throw e) => (t', Throw (wrap e))
    end.

Fixpoint for_await {A : Type} (l : list A) (body : A -> IO unit) : IO unit :=
  match l with
  | [] => ret tt
  | x :: l' => bindIO (body x) (fun _ => for_await l' body)
  end.

Declare Scope io_scope.
Delimit Scope io_scope with io.
Notation "x <- m ;;; k" := (bindIO m (fun x => k))
  (at level 62, m at next level, right associativity) : io_scope.
Notation "m ;;; k" := (bindIO m (fun _ => k))
  (at level 62, right associativity) : io_scope.

Section Extended.
Context {RT : Runtime}.

(** The network: the answer to the [n]-th request, for the URL asked. *)
Variable network : nat -> jsstring -> fetched.

Definition fetch (url : jsstring) : IO (bool * jsstring * json) :=
  fun t =>
    (t ++ [url],
     match network (List.length t) url with
     | FetchRejected message => Throw (Rejected message)
     | Response ok statusText body => Normal (ok, statusText, body)
     end).

Definition requiredFields : list string :=
  ["name"; "type"; "description"; "license"; "time"; "author"; "repo"; "home"]%string.

Definition validateBaseFields (plugin : Plugin.t) : completion unit :=
  for_of requiredFields (fun field =>
    check (negb (has plugin field))
          (MissingField (name_or_unknown plugin) field)) ;;
  check (negb (isValidTimeFormat (ToString (Plugin.time plugin))))
        (InvalidTimestamp (Plugin.name plugin)) ;;
  bind (defined (Plugin.description plugin)) (fun description =>
  check (Nat.ltb 50 (List.length description))
        (DescriptionTooLong (Plugin.name plugin)) ;;
  bind (defined (Plugin.license plugin)) (fun license =>
  check (negb (truthy (License.name license))
         || negb (truthy (License.url license))
         || negb (isValidUrl (ToString (License.url license))))
        (InvalidLicense (Plugin.name plugin)) ;;
  check (negb (present (Plugin.author plugin))
         || match Plugin.author plugin with Some [] => true | _ => false end)
        (InvalidAuthors (Plugin.name plugin)) ;;
  check (negb (present (Plugin.repo plugin))
         || match Plugin.repo plugin with Some [] => true | _ => false end)
        (InvalidRepositories (Plugin.name plugin)) ;;
  let type := ["github"; "gitee"; "gitcode"; "gitlab"; "npm"]%string in
  check (negb (includes type (Plugin.type plugin)))
        (InvalidVariant (Plugin.name plugin) (Plugin.type plugin)) ;;
  check (negb (isValidUrl (ToString (Plugin.home plugin))))
        (InvalidHomepage (Plugin.name plugin)))).

(** [getRawFileUrl]: the address of [package.json] in the repository. *)
Definition getRawFileUrl (repo : Repo.t) : completion jsstring :=
  let type := Repo.type repo in
  let branch := ToString (Repo.branch repo) in
  let filePath := js "package.json" in
  let raw url := url ++ js "/raw/" ++ branch ++ js "/" ++ filePath in
  if same type (Some (js "github")) then
    bind (defined (Repo.url repo)) (fun url =>
    Normal (replace (js "github.com") (js "raw.githubusercontent.com") url
            ++ js "/" ++ branch ++ js "/" ++ filePath))
  else if same type (Some (js "gitee")) then Normal (raw (ToString (Repo.url repo)))
  else if same type (Some (js "gitlab")) then Normal (raw (ToString (Repo.url repo)))
  else if same type (Some (js "gitcode")) then Normal (raw (ToString (Repo.url repo)))
  else if same type (Some (js "npm")) then
    Normal (js "https://registry.npmjs.org/" ++ ToString (Repo.url repo) ++ js "/latest")
  else Throw (UnsupportedRepoType type).

Open Scope io_scope.

(** [validatePackageJson]: every error of the body is rethrown with the
    plugin name and the repository URL around it. *)
Definition validatePackageJson (plugin : Plugin.t) (repo : Repo.t) : IO unit :=
  try_catch
    (if same (Repo.type repo) (Some (js "npm")) then
       if negb (same (Repo.branch repo) (Some []))
       then lift (Throw (UnexpectedBranch (Plugin.name plugin)))
       else ret tt
     else
       lift (check (negb (truthy (Repo.branch repo)))
                   (MissingBranch (Plugin.name plugin) (Repo.type repo))) ;;;
       rawUrl <- lift (getRawFileUrl repo) ;;;
       response <- fetch rawUrl ;;;
       let '(ok, statusText, body) := response in
       lift (check (negb ok) (RemoteFetchFailed statusText)) ;;;
       match body with
       | JsonRejected message => lift (Throw (Rejected message))
       | JsonNull => lift (Throw TypeError)
       | JsonValue name version =>
           lift (check (negb name) (RemoteManifestIncomplete "name")) ;;;
           lift (check (negb version) (RemoteManifestIncomplete "version"))
       end)
    (fun error => RepositoryCheckFailed (Plugin.name plugin) (Repo.url repo) error).

(** The body of the loop of [main]: the validation of one record. *)
Definition validatePlugin (plugin : Plugin.t) : IO unit :=
  lift (validateBaseFields plugin) ;;;
  lift (validateAuthor plugin) ;;;
  lift (validateRepo plugin) ;;;
  repos <- lift (defined (Plugin.repo plugin)) ;;;
  for_await repos (fun repo => validatePackageJson plugin repo) ;;;
  lift (validateVariant plugin).

Definition main (plugins : list Plugin.t) : IO unit :=
  lift (validateUniquePackages plugins) ;;;
  for_await plugins validatePlugin.

End Extended.
End Extended.

(* ================================================================= *)
(** ** The format checks as the specification words them *)

(** The number written by a sequence of decimal digits. *)
Definition number (digits : list code_unit) : N :=
  fold_left (fun acc c => (10 * acc + (c - 48))%N) digits 0%N.

(** The six numbers of a string of the form [NNNN-NN-NN NN:NN:NN], read by
    position. *)
Definition fields_of (s : jsstring) : option Date.fields :=
  match s with
  | [y1; y2; y3; y4; _; m1; m2; _; d1; d2; _; h1; h2; _; i1; i2; _; s1; s2] =>
      Some (Date.mk (number [y1; y2; y3; y4]) (number [m1; m2]) (number [d1; d2])
                    (number [h1; h2]) (number [i1; i2]) (number [s1; s2]))
  | _ => None
  end.

(** What the engine takes for a date and time: a month from 1 to 12, a day
    from 1 to 31 whatever the month, and a time up to 23:59:59 or exactly
    24:00:00. *)
Definition engine_accepts (f : Date.fields) : bool :=
  ((1 <=? Date.month f) && (Date.month f <=? 12))%N
  && ((1 <=? Date.day f) && (Date.day f <=? 31))%N
  && (((Date.hours f <=? 23) && (Date.minutes f <=? 59) && (Date.seconds f <=? 59))%N
      || ((Date.hours f =? 24) && (Date.minutes f =? 0) && (Date.seconds f =? 0))%N).

Definition leap_year (y : N) : bool :=
  ((y mod 4 =? 0) && (negb (y mod 100 =? 0) || (y mod 400 =? 0)))%N.

Definition days_in_month (y m : N) : N :=
  if (m =? 2)%N then (if leap_year y then 29 else 28)%N
  else if ((m =? 4) || (m =? 6) || (m =? 9) || (m =? 11))%N then 30%N
  else 31%N.

(** A real calendar date-time: the day exists in that month of that year,
    and the time is a time of the day. *)
Definition real_calendar_date_time (f : Date.fields) : bool :=
  ((1 <=? Date.month f) && (Date.month f <=? 12))%N
  && ((1 <=? Date.day f) && (Date.day f <=? days_in_month (Date.year f) (Date.month f)))%N
  && ((Date.hours f <=? 23) && (Date.minutes f <=? 59) && (Date.seconds f <=? 59))%N.

(** The timestamp check of the specification: the lexical pattern, and a
    real calendar date-time. *)
Definition spec_timestamp_check (s : jsstring) : bool :=
  regex_test time_regex s
  && match fields_of s with
     | Some f => real_calendar_date_time f
     | None => false
     end.

(** The URL check of the specification: a URL with a scheme and an
    authority. *)
Definition spec_url_check {RT : Runtime} (s : jsstring) : bool :=
  match URL.new s with
  | Some u => present (URL.host_of u)
  | None => false
  end.

(** Who throws [MissingFiles]: [validateAppPlugin] alone. *)
Definition not_missing_files (e : error) : Prop := forall n, e <> MissingFiles n.

(* ================================================================= *)
(** ** Concrete registries *)

(** A runtime without Unicode processing of host names: it refuses every
    host name that is not plain ASCII.  The concrete inputs below have plain
    ASCII hosts only, for which no runtime is consulted. *)
Definition ascii_runtime : Runtime := {| domain_to_ASCII := fun _ => None |}.

(** A network on which every request is answered with a complete
    [package.json]. *)
Definition network_ok (n : nat) (url : jsstring) : Extended.fetched :=
  Extended.Response true (js "OK") (Extended.JsonValue true true).

(** The first example of the README, with a type, a time stamp, a
    description and a list of files to choose. *)
Definition example (name type time description : string)
  (files : option (list jsstring)) : Plugin.t :=
  Plugin.mk
    (Some (js name)) (Some (js type)) (Some (js description)) (Some (js time))
    (Some (js "https://github.com/karinjs/karin-plugin-basic"))
    (Some (License.mk (Some (js "MIT"))
       (Some (js "https://github.com/karinjs/karin-plugin-basic/blob/main/LICENSE"))))
    (Some [Author.mk (Some (js "shijin")) (Some (js "https://github.com/sj817"))])
    (Some [Repo.mk (Some (js "github"))
             (Some (js "https://github.com/karinjs/karin-plugin-basic"))
             (Some (js "main"))])
    files.

Definition npm_example : Plugin.t :=
  example "karin-plugin-basic" "npm" "2025-01-19 10:00:00" "karin plugin basic" None.

Definition git_example : Plugin.t :=
  example "karin-plugin-git-example" "git" "2024-03-19 10:00:00" "a git plugin" None.

Definition app_example : Plugin.t :=
  example "karin-plugin-app-example" "app" "2024-03-19 10:00:00" "an app plugin"
    (Some [js "https://example.com/plugin/index.js"]).

Definition app_without_files : Plugin.t :=
  example "karin-plugin-app-example" "app" "2024-03-19 10:00:00" "an app plugin"
    (Some []).

(** A record whose type is a repository kind, not a plugin type. *)
Definition github_typed : Plugin.t :=
  example "karin-plugin-basic" "github" "2025-01-19 10:00:00" "karin plugin basic" None.

Definition bad_time_example : Plugin.t :=
  example "karin-plugin-other" "npm" "2025-13-01 00:00:00" "another plugin" None.

(** Descriptions of 50 and of 51 characters. *)
Definition fifty : string := "12345678901234567890123456789012345678901234567890".

Definition fifty_example : Plugin.t :=
  example "karin-plugin-basic" "npm" "2025-01-19 10:00:00" fifty None.

Definition fifty_one_example : Plugin.t :=
  example "karin-plugin-basic" "npm" "2025-01-19 10:00:00" (fifty ++ "1") None.

(** A record with an empty description, and one without a name. *)
Definition empty_description_example : Plugin.t :=
  example "karin-plugin-basic" "npm" "2025-01-19 10:00:00" EmptyString None.

Definition nameless (description : string) : Plugin.t :=
  Plugin.mk None (Some (js "npm")) (Some (js description))
    (Some (js "2025-01-19 10:00:00")) None None None None None.

(** Repository entries for the branch rule. *)
Definition npm_with_branch : Repo.t :=
  Repo.mk (Some (js "npm")) (Some (js "karin-plugin-basic")) (Some (js "main")).

Definition github_without_branch : Repo.t :=
  Repo.mk (Some (js "github"))
    (Some (js "https://github.com/karinjs/karin-plugin-basic")) (Some []).

(* ================================================================= *)
(** ** What the validators ask, in one place *)

(** The conditions below are read off the checks of the script; the
    properties relate them to the runs of the validators. *)

Section Requirements.
Context {RT : Runtime}.

(** The two checks on one author, and on one repository. *)
Definition author_ok (author : Author.t) : bool :=
  truthy (Author.name author)
  && truthy (Author.home author)
  && isValidUrl (ToString (Author.home author)).

Definition repo_ok (repo : Repo.t) : bool :=
  includes validTypes (Repo.type repo)
  && truthy (Repo.url repo)
  && isValidUrl (ToString (Repo.url repo)).

(** What [validateBaseFields] of the first generation asks of a record. *)
Definition base_fields_ok (plugin : Plugin.t) : Prop :=
  truthy (Plugin.name plugin) = true
  /\ includes ["github"; "gitee"; "gitcode"; "gitlab"; "npm"]%string (Plugin.type plugin) = true
  /\ (exists description,
        Plugin.description plugin = Some description
        /\ description <> [] /\ List.length description <= 50)
  /\ (exists license,
        Plugin.license plugin = Some license
        /\ truthy (License.name license) = true
        /\ truthy (License.url license) = true
        /\ isValidUrl (ToString (License.url license)) = true)
  /\ isValidTimeFormat (ToString (Plugin.time plugin)) = true
  /\ (exists authors, Plugin.author plugin = Some authors /\ authors <> [])
  /\ (exists repos, Plugin.repo plugin = Some repos /\ repos <> []).

(** What the second generation asks of the home page. *)
Definition home_ok (plugin : Plugin.t) : Prop :=
  exists home,
    Plugin.home plugin = Some home /\ home <> [] /\ isValidUrl home = true.

End Requirements.


(** The plugin with another list of files. *)
Definition with_files (plugin : Plugin.t) (files : option (list jsstring)) : Plugin.t :=
  Plugin.mk (Plugin.name plugin) (Plugin.type plugin) (Plugin.description plugin)
    (Plugin.time plugin) (Plugin.home plugin) (Plugin.license plugin)
    (Plugin.author plugin) (Plugin.repo plugin) files.

(** The tail of the address of [package.json] on a branch. *)
Definition package_json (branch : value) : jsstring :=
  js "/" ++ ToString branch ++ js "/package.json".

(** The requests that the repositories of a record call for: one for each
    repository that is not of type [npm], in the order of the record. *)
Definition requests_of (repo : Repo.t) : list jsstring :=
  if same (Repo.type repo) (Some (js "npm")) then []
  else
    match Extended.getRawFileUrl repo with
    | Normal rawUrl => [rawUrl]
    | Throw _ => []
    end.

Definition repos_of (plugin : Plugin.t) : list Repo.t :=
  match Plugin.repo plugin with
  | Some repos => repos
  | None => []
  end.

(** A run that adds at most [k] requests to the trace and removes none. *)
Definition adds_at_most (A : Type) (k : nat) (m : Extended.IO A) : Prop :=
  forall t, exists new, fst (m t) = t ++ new /\ List.length new <= k.

(** Further concrete inputs: a repository on the registry of npm, and a
    network on which every request is answered with status 404. *)
Definition npm_registry_entry : Repo.t :=
  Repo.mk (Some (js "npm")) (Some (js "karin-plugin-basic")) (Some []).

Definition github_entry : Repo.t :=
  Repo.mk (Some (js "github"))
    (Some (js "https://github.com/karinjs/karin-plugin-basic")) (Some (js "main")).

(** A second valid record, and records with a faulty second author, a
    faulty second repository and a faulty second file. *)
Definition other_npm_example : Plugin.t :=
  example "karin-plugin-other" "npm" "2025-01-19 10:00:00" "another plugin" None.

Definition second_author_without_home : Plugin.t :=
  Plugin.mk (Plugin.name npm_example) (Plugin.type npm_example)
    (Plugin.description npm_example) (Plugin.time npm_example)
    (Plugin.home npm_example) (Plugin.license npm_example)
    (Some [Author.mk (Some (js "shijin")) (Some (js "https://github.com/sj817"));
           Author.mk (Some (js "other")) None])
    (Plugin.repo npm_example) None.

Definition second_repo_of_unknown_kind : Plugin.t :=
  Plugin.mk (Plugin.name npm_example) (Plugin.type npm_example)
    (Plugin.description npm_example) (Plugin.time npm_example)
    (Plugin.home npm_example) (Plugin.license npm_example)
    (Plugin.author npm_example)
    (Some [github_entry;
           Repo.mk (Some (js "svn")) (Some (js "https://example.com/repo")) None])
    None.

Definition second_file_invalid : Plugin.t :=
  with_files app_example
    (Some [js "https://example.com/plugin/index.js"; js "not a url"]).


(* ================================================================= *)
(** * Properties *)

(** ** Strings *)

Lemma str_eqb_eq (s t : jsstring) : str_eqb s t = true <-> s = t.
Proof.
  revert t. induction s as [|a s IH]; intros [|b t]; cbn; split;
    try discriminate; try reflexivity.
  - intros H. apply andb_true_iff in H. destruct H as [Hab Hst].
    apply N.eqb_eq in Hab. apply IH in Hst. congruence.
  - intros H. injection H as -> ->. rewrite N.eqb_refl. cbn. now apply IH.
Qed.

Lemma str_eqb_refl (s : jsstring) : str_eqb s s = true.
Proof. now apply str_eqb_eq. Qed.

Lemma same_eq (v w : value) : same v w = true <-> v = w.
Proof.
  destruct v as [s|], w as [t|]; cbn; split; try discriminate; try reflexivity.
  - intros H. apply str_eqb_eq in H. congruence.
  - intros H. injection H as ->. apply str_eqb_refl.
Qed.

Lemma same_refl (v : value) : same v v = true.
Proof. now apply same_eq. Qed.

Lemma same_neq (v w : value) : same v w = false <-> v <> w.
Proof.
  split.
  - intros H E. apply same_eq in E. congruence.
  - intros H. destruct (same v w) eqn:E; [|reflexivity].
    apply same_eq in E. contradiction.
Qed.

(** ** The timestamp check *)

Ltac split_digits H :=
  cbn [forallb] in H;
  repeat (apply andb_true_iff in H; let E := fresh "E" in destruct H as [E H]).

Lemma regex_shape (s : jsstring) :
  regex_test time_regex s = true ->
  exists y1 y2 y3 y4 m1 m2 d1 d2 h1 h2 i1 i2 s1 s2,
    s = [y1; y2; y3; y4; ch "-"; m1; m2; ch "-"; d1; d2; ch " ";
         h1; h2; ch ":"; i1; i2; ch ":"; s1; s2]
    /\ forallb is_digit [y1; y2; y3; y4; m1; m2; d1; d2; h1; h2; i1; i2; s1; s2] = true.
Proof.
  unfold time_regex. intros H.
  repeat match type of H with
  | regex_test (_ :: _) ?s = true =>
      destruct s as [|? ?]; [cbn in H; discriminate H|];
      cbn [regex_test] in H; apply andb_true_iff in H;
      let E := fresh "E" in destruct H as [E H]
  end.
  destruct s; [|cbn in H; discriminate H].
  repeat match goal with
  | E : N.eqb _ _ = true |- _ => apply N.eqb_eq in E; subst
  end.
  do 14 eexists. split; [reflexivity|].
  cbn [forallb].
  repeat match goal with E : is_digit _ = true |- _ => rewrite E; clear E end.
  reflexivity.
Qed.

Lemma replace_skip (pat0 : code_unit) (pat rep : jsstring) (c : code_unit) (s : jsstring) :
  N.eqb pat0 c = false ->
  replace (pat0 :: pat) rep (c :: s) = c :: replace (pat0 :: pat) rep s.
Proof. intros H. cbn [replace strip_prefix]. rewrite H. reflexivity. Qed.

Lemma digit_not_space (c : code_unit) : is_digit c = true -> N.eqb 32 c = false.
Proof.
  unfold is_digit. intros H. apply andb_true_iff in H. destruct H as [H _].
  apply N.leb_le in H. apply N.eqb_neq. lia.
Qed.

Lemma replace_space_T (y1 y2 y3 y4 m1 m2 d1 d2 : code_unit) (s : jsstring) :
  forallb is_digit [y1; y2; y3; y4; m1; m2; d1; d2] = true ->
  replace (js " ") (js "T")
    (y1 :: y2 :: y3 :: y4 :: ch "-" :: m1 :: m2 :: ch "-" :: d1 :: d2 :: ch " " :: s)
  = y1 :: y2 :: y3 :: y4 :: ch "-" :: m1 :: m2 :: ch "-" :: d1 :: d2 :: ch "T" :: s.
Proof.
  intros H. split_digits H.
  change (js " ") with [32%N].
  repeat (rewrite replace_skip by (auto using digit_not_space)).
  reflexivity.
Qed.

Lemma fixed_number_2 (a b : code_unit) (s : jsstring) :
  is_digit a = true -> is_digit b = true ->
  match s with c :: _ => is_digit c = false | [] => True end ->
  Date.fixed_number 2 0 (a :: b :: s) = Some (number [a; b], s).
Proof.
  intros Ha Hb Hs. cbn [Date.fixed_number]. rewrite Ha, Hb.
  destruct s as [|c s]; [reflexivity|]. rewrite Hs. reflexivity.
Qed.

Lemma fixed_number_4 (a b c d : code_unit) (s : jsstring) :
  is_digit a = true -> is_digit b = true -> is_digit c = true -> is_digit d = true ->
  match s with c :: _ => is_digit c = false | [] => True end ->
  Date.fixed_number 4 0 (a :: b :: c :: d :: s) = Some (number [a; b; c; d], s).
Proof.
  intros Ha Hb Hc Hd Hs. cbn [Date.fixed_number]. rewrite Ha, Hb, Hc, Hd.
  destruct s as [|x s]; [reflexivity|]. rewrite Hs. reflexivity.
Qed.

Ltac next_number :=
  cbn [Date.symbol]; rewrite N.eqb_refl;
  rewrite fixed_number_2 by (assumption || reflexivity || exact I).

(** On a string of the shape the regular expression lets through, the
    engine decides by the ranges of the numbers alone. *)
Lemma Date_new_shape (y1 y2 y3 y4 m1 m2 d1 d2 h1 h2 i1 i2 s1 s2 : code_unit) :
  forallb is_digit [y1; y2; y3; y4; m1; m2; d1; d2; h1; h2; i1; i2; s1; s2] = true ->
  let f := Date.mk (number [y1; y2; y3; y4]) (number [m1; m2]) (number [d1; d2])
                   (number [h1; h2]) (number [i1; i2]) (number [s1; s2]) in
  Date.new [y1; y2; y3; y4; ch "-"; m1; m2; ch "-"; d1; d2; ch "T";
            h1; h2; ch ":"; i1; i2; ch ":"; s1; s2]
  = if engine_accepts f then Some f else None.
Proof.
  intros H f. split_digits H.
  unfold Date.new, Date.parse_day, Date.parse_time.
  unfold engine_accepts, f, Date.IsMonth, Date.IsDay, Date.IsMinute, Date.IsSecond.
  cbn [Date.month Date.day Date.hours Date.minutes Date.seconds].
  rewrite fixed_number_4 by (assumption || reflexivity).
  generalize (number [y1; y2; y3; y4]); intros y.
  next_number. generalize (number [m1; m2]); intros mo.
  destruct ((1 <=? mo) && (mo <=? 12))%N; cbn [negb andb]; [|reflexivity].
  next_number. generalize (number [d1; d2]); intros d.
  destruct ((1 <=? d) && (d <=? 31))%N; cbn [negb andb]; [|reflexivity].
  next_number. generalize (number [h1; h2]); intros h.
  destruct (N.leb_spec h 24); cbn [negb];
    [|destruct (N.leb_spec h 23); [lia|]; destruct (N.eqb_spec h 24); [lia|]; reflexivity].
  next_number. generalize (number [i1; i2]); intros mi.
  destruct (N.leb_spec mi 59); cbn [negb orb].
  2: { destruct (N.eqb_spec mi 0); [lia|]. now rewrite !andb_false_r. }
  destruct (N.eqb_spec h 24) as [-> | Hh]; cbn [andb].
  - destruct (N.ltb_spec 0 mi).
    + destruct (N.eqb_spec mi 0); [lia|]. reflexivity.
    + next_number. generalize (number [s1; s2]); intros sec.
      destruct (N.eqb_spec mi 0); [|lia].
      destruct (N.leb_spec sec 59); cbn [negb orb].
      2: { destruct (N.eqb_spec sec 0); [lia|]. reflexivity. }
      destruct (N.ltb_spec 0 sec).
      * destruct (N.eqb_spec sec 0); [lia|]. reflexivity.
      * destruct (N.eqb_spec sec 0); [|lia]. reflexivity.
  - next_number. generalize (number [s1; s2]); intros sec.
    destruct (N.leb_spec h 23); [|lia].
    destruct (N.leb_spec sec 59); cbn; reflexivity.
Qed.

Lemma isValidTimeFormat_spec (s : jsstring) :
  isValidTimeFormat s
  = regex_test time_regex s
    && match fields_of s with Some f => engine_accepts f | None => false end.
Proof.
  unfold isValidTimeFormat.
  destruct (regex_test time_regex s) eqn:R; [|reflexivity].
  destruct (regex_shape s R) as (y1&y2&y3&y4&m1&m2&d1&d2&h1&h2&i1&i2&s1&s2&->&D).
  cbn [negb andb fields_of].
  rewrite replace_space_T.
  2:{ split_digits D. cbn [forallb].
      repeat match goal with E : is_digit _ = true |- _ => rewrite E; clear E end.
      reflexivity. }
  rewrite Date_new_shape by exact D.
  destruct (engine_accepts _); reflexivity.
Qed.

Lemma days_in_month_le (y m : N) : (days_in_month y m <= 31)%N.
Proof.
  unfold days_in_month.
  destruct (m =? 2)%N; [destruct (leap_year y); lia|].
  destruct ((m =? 4) || (m =? 6) || (m =? 9) || (m =? 11))%N; lia.
Qed.

Lemma real_calendar_accepted (f : Date.fields) :
  real_calendar_date_time f = true -> engine_accepts f = true.
Proof.
  unfold real_calendar_date_time, engine_accepts. intros H.
  apply andb_true_iff in H. destruct H as [H Ht].
  apply andb_true_iff in H. destruct H as [Hm Hd].
  apply andb_true_iff in Hd. destruct Hd as [Hd1 Hd2].
  rewrite Hm, Hd1, Ht. cbn [andb orb]. rewrite andb_true_r.
  apply N.leb_le. apply N.leb_le in Hd2.
  pose proof (days_in_month_le (Date.year f) (Date.month f)). lia.
Qed.

(** C4, as amended.  The timestamp check is a total boolean function of the
    string.  It accepts a string exactly when the string matches the pattern
    [NNNN-NN-NN NN:NN:NN] and its numbers are a month from 01 to 12, a day
    from 01 to 31 whatever the month, and a time up to 23:59:59 or exactly
    24:00:00.  Every string of the pattern that writes a real calendar
    date-time is accepted.  ["2025-01-19 10:00:00"] is accepted,
    ["2025-13-01 00:00:00"] matches the pattern and is rejected, and
    ["2025/01/19 10:00:00"] is rejected by the pattern. *)
Theorem C4_timestamp_check :
  (forall s : jsstring,
     isValidTimeFormat s
     = regex_test time_regex s
       && match fields_of s with Some f => engine_accepts f | None => false end)
  /\ (forall s : jsstring, implb (spec_timestamp_check s) (isValidTimeFormat s) = true)
  /\ isValidTimeFormat (js "2025-01-19 10:00:00") = true
  /\ (regex_test time_regex (js "2025-13-01 00:00:00") = true
      /\ isValidTimeFormat (js "2025-13-01 00:00:00") = false)
  /\ (regex_test time_regex (js "2025/01/19 10:00:00") = false
      /\ isValidTimeFormat (js "2025/01/19 10:00:00") = false).
Proof.
  split; [exact isValidTimeFormat_spec|].
  split; [|repeat split; vm_compute; reflexivity].
  intros s. rewrite isValidTimeFormat_spec. unfold spec_timestamp_check.
  destruct (regex_test time_regex s); [|reflexivity].
  destruct (fields_of s) as [f|]; [|reflexivity]. cbn [andb].
  destruct (real_calendar_date_time f) eqn:E; [|reflexivity].
  now rewrite (real_calendar_accepted f E).
Qed.

(** C4, as stated, fails: the 30th of February is no calendar date, and the
    check accepts it. *)
Lemma C4_february_30_accepted :
  isValidTimeFormat (js "2025-02-30 10:00:00") = true
  /\ spec_timestamp_check (js "2025-02-30 10:00:00") = false.
Proof. split; vm_compute; reflexivity. Qed.

(** ** The URL check *)

Section UrlFacts.
Context {RT : Runtime}.

Lemma scheme_state_shape (s buffer sch rest : jsstring) :
  URL.scheme_state buffer s = Some (sch, rest) ->
  exists raw,
    s = raw ++ ch ":" :: rest
    /\ forallb URL.is_scheme_char raw = true
    /\ sch = buffer ++ map URL.to_lower raw.
Proof.
  revert buffer. induction s as [|c s IH]; intros buffer H; cbn in H; [discriminate|].
  destruct (URL.is_scheme_char c) eqn:Ec.
  - apply IH in H. destruct H as (raw & -> & Hraw & ->).
    exists (c :: raw). cbn. rewrite Ec, Hraw, <- app_assoc. auto.
  - destruct (URL.is_ch ":" c) eqn:E; [|discriminate].
    apply N.eqb_eq in E. subst c. injection H as -> ->.
    exists []. cbn. rewrite app_nil_r. auto.
Qed.

Lemma scheme_start_shape (s sch rest : jsstring) :
  URL.scheme_start_state s = Some (sch, rest) ->
  exists c raw,
    s = c :: raw ++ ch ":" :: rest
    /\ URL.is_alpha c = true
    /\ forallb URL.is_scheme_char raw = true
    /\ sch = map URL.to_lower (c :: raw).
Proof.
  destruct s as [|c s]; cbn; [discriminate|].
  destruct (URL.is_alpha c) eqn:Ec; [|discriminate].
  intros H. apply scheme_state_shape in H. destruct H as (raw & -> & Hraw & ->).
  exists c, raw. auto.
Qed.

Lemma URL_new_has_scheme (s : jsstring) (u : URL.record) :
  URL.new s = Some u ->
  exists sch rest, URL.scheme_start_state (URL.preprocess s) = Some (sch, rest).
Proof.
  unfold URL.new. destruct (URL.scheme_start_state (URL.preprocess s)) as [[sch r]|].
  - intros _. eauto.
  - discriminate.
Qed.

(** C7, as amended.  The URL check is a total boolean function of the string:
    a failure of the parser is the answer [false], never an error.  It
    accepts a string exactly when the URL parser of the runtime, run without
    a base URL, succeeds on it.  An accepted string, once trimmed, starts with
    a scheme: a letter, then letters, digits, [+], [-] or [.], up to a colon.
    An authority is not required: ["mailto:x"] is accepted.  Every string
    that parses to a URL with an authority is accepted.  ["not a url"] is
    rejected and ["https://github.com/org/repo"] is accepted. *)
Theorem C7_url_check :
  (forall s : jsstring, isValidUrl s = true <-> exists u, URL.new s = Some u)
  /\ (forall s : jsstring, isValidUrl s = true ->
        exists c raw rest,
          URL.preprocess s = c :: raw ++ ch ":" :: rest
          /\ URL.is_alpha c = true
          /\ forallb URL.is_scheme_char raw = true)
  /\ (forall s : jsstring, implb (spec_url_check s) (isValidUrl s) = true)
  /\ isValidUrl (js "not a url") = false
  /\ isValidUrl (js "https://github.com/org/repo") = true
  /\ (isValidUrl (js "mailto:x") = true /\ spec_url_check (js "mailto:x") = false).
Proof.
  split.
  { intros s. unfold isValidUrl. destruct (URL.new s) as [u|]; split;
      try discriminate; eauto. intros [u H]. discriminate. }
  split.
  { intros s. unfold isValidUrl. destruct (URL.new s) as [u|] eqn:E; [|discriminate].
    intros _. destruct (URL_new_has_scheme _ E) as (sch & rest & H).
    apply scheme_start_shape in H. destruct H as (c & raw & H & Hc & Hraw & _).
    eauto 7. }
  split.
  { intros s. unfold spec_url_check, isValidUrl.
    destruct (URL.new s); [apply implb_true_r | reflexivity]. }
  repeat split; reflexivity.
Qed.

End UrlFacts.

(** C7, as stated, fails: ["mailto:x"] has a scheme and no authority, and
    the check accepts it. *)
Lemma C7_mailto_accepted :
  @isValidUrl ascii_runtime (js "mailto:x") = true
  /\ @spec_url_check ascii_runtime (js "mailto:x") = false.
Proof. split; reflexivity. Qed.


(** ** Completions and loops *)

Lemma bind_throw (A B : Type) (c : completion A) (k : A -> completion B) (e : error) :
  bind c k = Throw e ->
  c = Throw e \/ exists a, c = Normal a /\ k a = Throw e.
Proof.
  destruct c as [a|e']; cbn; intros H; [right; eauto | left].
  injection H as ->. reflexivity.
Qed.

Lemma for_of_throw (A : Type) (body : A -> completion unit) (l : list A) (e : error) :
  for_of l body = Throw e -> exists x, In x l /\ body x = Throw e.
Proof.
  induction l as [|x l IH]; cbn; [discriminate|].
  destruct (body x) as [[]|e'] eqn:E; cbn.
  - intros H. destruct (IH H) as (y & Hy & Hb). eauto.
  - intros [= ->]. eauto.
Qed.

Lemma for_of_pass (A : Type) (body : A -> completion unit) (l : list A) :
  (forall x, In x l -> body x = Normal tt) -> for_of l body = Normal tt.
Proof.
  induction l as [|x l IH]; cbn; intros H; [reflexivity|].
  rewrite (H x) by auto. cbn. apply IH. auto.
Qed.

(** A loop of checks stops at the first violation. *)
Lemma for_of_check (A : Type) (ok : A -> bool) (err : A -> error) (l : list A) :
  for_of l (fun x => check (negb (ok x)) (err x))
  = match find (fun x => negb (ok x)) l with
    | Some x => Throw (err x)
    | None => Normal tt
    end.
Proof.
  induction l as [|x l IH]; cbn; [reflexivity|].
  destruct (ok x); cbn; [exact IH | reflexivity].
Qed.

Section ValidatorFacts.
Context {RT : Runtime}.

Lemma Basic_required (plugin : Plugin.t) :
  for_of Basic.requiredFields (fun field =>
    check (negb (has plugin field)) (MissingField (name_or_unknown plugin) field))
  = (check (negb (truthy (Plugin.name plugin))) (MissingField (name_or_unknown plugin) "name") ;;
     check (negb (truthy (Plugin.type plugin))) (MissingField (name_or_unknown plugin) "type") ;;
     check (negb (truthy (Plugin.description plugin))) (MissingField (name_or_unknown plugin) "description") ;;
     check (negb (present (Plugin.license plugin))) (MissingField (name_or_unknown plugin) "license") ;;
     check (negb (truthy (Plugin.time plugin))) (MissingField (name_or_unknown plugin) "time") ;;
     check (negb (present (Plugin.author plugin))) (MissingField (name_or_unknown plugin) "author") ;;
     check (negb (present (Plugin.repo plugin))) (MissingField (name_or_unknown plugin) "repo") ;;
     Normal tt).
Proof. reflexivity. Qed.

Lemma Extended_required (plugin : Plugin.t) :
  for_of Extended.requiredFields (fun field =>
    check (negb (has plugin field)) (MissingField (name_or_unknown plugin) field))
  = (check (negb (truthy (Plugin.name plugin))) (MissingField (name_or_unknown plugin) "name") ;;
     check (negb (truthy (Plugin.type plugin))) (MissingField (name_or_unknown plugin) "type") ;;
     check (negb (truthy (Plugin.description plugin))) (MissingField (name_or_unknown plugin) "description") ;;
     check (negb (present (Plugin.license plugin))) (MissingField (name_or_unknown plugin) "license") ;;
     check (negb (truthy (Plugin.time plugin))) (MissingField (name_or_unknown plugin) "time") ;;
     check (negb (present (Plugin.author plugin))) (MissingField (name_or_unknown plugin) "author") ;;
     check (negb (present (Plugin.repo plugin))) (MissingField (name_or_unknown plugin) "repo") ;;
     check (negb (truthy (Plugin.home plugin))) (MissingField (name_or_unknown plugin) "home") ;;
     Normal tt).
Proof. reflexivity. Qed.

Lemma truthy_empty (v : value) : v = Some [] -> truthy v = false.
Proof. intros ->. reflexivity. Qed.

(** Destructs the conditions of the checks of the goal, one after the
    other. *)
Ltac run_checks :=
  repeat (cbn [bind check defined negb];
          match goal with
          | |- context [check (negb ?b) _] => destruct b eqn:?
          | |- context [check ?b _] => destruct b eqn:?
          | |- context [defined ?v] => destruct v eqn:?
          end);
  cbn [bind check defined negb].

(** C9.  A record in which the name, the type, the description or the time
    is the empty string fails the required-field check of both generations
    with [MissingField]: the empty string is falsy, so the field counts as
    missing and the record never reaches the later rules.  The field
    reported is the first one missing in the order name, type, description,
    license, time: an empty name is reported for a plugin called unknown,
    an empty type when the name is there, an empty description when the name
    and the type are there, an empty time when the four before it are
    there. *)
Theorem C9_empty_string_is_missing (plugin : Plugin.t) :
  (Plugin.name plugin = Some [] \/ Plugin.type plugin = Some []
   \/ Plugin.description plugin = Some [] \/ Plugin.time plugin = Some [] ->
   exists field,
     Basic.validateBaseFields plugin = Throw (MissingField (name_or_unknown plugin) field)
     /\ Extended.validateBaseFields plugin = Throw (MissingField (name_or_unknown plugin) field))
  /\ (Plugin.name plugin = Some [] ->
      Basic.validateBaseFields plugin = Throw (MissingField unknown "name")
      /\ Extended.validateBaseFields plugin = Throw (MissingField unknown "name"))
  /\ (Plugin.type plugin = Some [] ->
      truthy (Plugin.name plugin) = true ->
      Basic.validateBaseFields plugin
      = Throw (MissingField (ToString (Plugin.name plugin)) "type")
      /\ Extended.validateBaseFields plugin
         = Throw (MissingField (ToString (Plugin.name plugin)) "type"))
  /\ (Plugin.description plugin = Some [] ->
      truthy (Plugin.name plugin) = true -> truthy (Plugin.type plugin) = true ->
      Basic.validateBaseFields plugin
      = Throw (MissingField (ToString (Plugin.name plugin)) "description")
      /\ Extended.validateBaseFields plugin
         = Throw (MissingField (ToString (Plugin.name plugin)) "description"))
  /\ (Plugin.time plugin = Some [] ->
      truthy (Plugin.name plugin) = true -> truthy (Plugin.type plugin) = true ->
      truthy (Plugin.description plugin) = true ->
      present (Plugin.license plugin) = true ->
      Basic.validateBaseFields plugin
      = Throw (MissingField (ToString (Plugin.name plugin)) "time")
      /\ Extended.validateBaseFields plugin
         = Throw (MissingField (ToString (Plugin.name plugin)) "time")).
Proof.
  unfold Basic.validateBaseFields, Extended.validateBaseFields.
  rewrite Basic_required, Extended_required.
  split; [|split; [|split; [|split]]].
  - intros H.
    assert (E : truthy (Plugin.name plugin) && truthy (Plugin.type plugin)
                && truthy (Plugin.description plugin) && truthy (Plugin.time plugin) = false).
    { destruct H as [H|[H|[H|H]]]; rewrite (truthy_empty H);
        rewrite ?andb_false_r; reflexivity. }
    destruct (truthy (Plugin.name plugin)); cbn [bind check negb]; [|eauto].
    destruct (truthy (Plugin.type plugin)); cbn [bind check negb]; [|eauto].
    destruct (truthy (Plugin.description plugin)); cbn [bind check negb]; [|eauto].
    destruct (present (Plugin.license plugin)); cbn [bind check negb]; [|eauto].
    destruct (truthy (Plugin.time plugin)); cbn [bind check negb]; [|eauto].
    discriminate E.
  - intros Hn. unfold name_or_unknown. rewrite (truthy_empty Hn). cbn. auto.
  - intros Ht Hn. unfold name_or_unknown. rewrite Hn, (truthy_empty Ht). cbn. auto.
  - intros Hd Hn Ht. unfold name_or_unknown.
    rewrite Hn, Ht, (truthy_empty Hd). cbn. auto.
  - intros Hi Hn Ht Hd Hl. unfold name_or_unknown.
    rewrite Hn, Ht, Hd, Hl, (truthy_empty Hi). cbn. auto.
Qed.

Lemma has_all (plugin : Plugin.t) (fields : list string) :
  (forall field, In field fields -> has plugin field = true) ->
  for_of fields (fun field =>
    check (negb (has plugin field)) (MissingField (name_or_unknown plugin) field))
  = Normal tt.
Proof.
  intros H. apply for_of_pass. intros field Hf. rewrite (H field Hf). reflexivity.
Qed.

(** C6.  For a record that passes the earlier checks (every required field
    there, a valid time stamp), a description of 51 characters or more makes
    [validateBaseFields] fail with [DescriptionTooLong], in both generations;
    with a description of exactly 50 characters [validateBaseFields] does
    not fail with [DescriptionTooLong]. *)
Theorem C6_description_bound (plugin : Plugin.t) (description : jsstring) :
  Plugin.description plugin = Some description ->
  ((forall field, In field Basic.requiredFields -> has plugin field = true) ->
   isValidTimeFormat (ToString (Plugin.time plugin)) = true ->
   51 <= List.length description ->
   Basic.validateBaseFields plugin = Throw (DescriptionTooLong (Plugin.name plugin)))
  /\ ((forall field, In field Extended.requiredFields -> has plugin field = true) ->
      isValidTimeFormat (ToString (Plugin.time plugin)) = true ->
      51 <= List.length description ->
      Extended.validateBaseFields plugin = Throw (DescriptionTooLong (Plugin.name plugin)))
  /\ (List.length description = 50 ->
      forall n,
        Basic.validateBaseFields plugin <> Throw (DescriptionTooLong n)
        /\ Extended.validateBaseFields plugin <> Throw (DescriptionTooLong n)).
Proof.
  intros Hd. unfold Basic.validateBaseFields, Extended.validateBaseFields.
  rewrite Hd. split; [|split].
  - intros Hreq Htime Hlen. rewrite (has_all _ _ Hreq), Htime. cbn [bind check negb defined].
    destruct (Nat.ltb_spec 50 (List.length description)); [reflexivity | lia].
  - intros Hreq Htime Hlen. rewrite (has_all _ _ Hreq), Htime. cbn [bind check negb defined].
    destruct (Nat.ltb_spec 50 (List.length description)); [reflexivity | lia].
  - intros Hlen n. rewrite Basic_required, Extended_required. cbn [defined bind].
    rewrite Hlen, Nat.ltb_irrefl.
    split; run_checks; discriminate.
Qed.

(** ** Uniqueness of names *)

Lemma existsb_same_false (v : value) (names : list value) :
  existsb (same v) names = false -> ~ In v names.
Proof.
  intros H Hin. assert (E : existsb (same v) names = true).
  { apply existsb_exists. exists v. split; [exact Hin | apply same_refl]. }
  congruence.
Qed.

Lemma unique_from_throw (plugins : list Plugin.t) (names : list value) (e : error) :
  unique_from names plugins = Throw e ->
  exists p, In p plugins /\ e = DuplicateName (Plugin.name p).
Proof.
  revert names. induction plugins as [|p rest IH]; intros names; cbn; [discriminate|].
  destruct (existsb (same (Plugin.name p)) names).
  - intros [= <-]. eauto.
  - intros H. apply IH in H. destruct H as (q & Hq & ->). eauto.
Qed.

Lemma unique_from_normal (plugins : list Plugin.t) (names : list value) :
  unique_from names plugins = Normal tt ->
  (forall v, In v names -> ~ In v (map Plugin.name plugins))
  /\ NoDup (map Plugin.name plugins).
Proof.
  revert names. induction plugins as [|p rest IH]; intros names; cbn.
  - intros _. split; [tauto | constructor].
  - destruct (existsb (same (Plugin.name p)) names) eqn:E; [discriminate|].
    intros H. apply IH in H. destruct H as [Hnames Hrest].
    apply existsb_same_false in E. split.
    + intros v Hv [Hp | Hr].
      * subst v. contradiction.
      * apply (Hnames v); [apply in_or_app; auto | exact Hr].
    + constructor; [|exact Hrest].
      apply (Hnames (Plugin.name p)). apply in_or_app. right. left. reflexivity.
Qed.

(** Two records with one name make the uniqueness check fail, whatever
    else the collection holds. *)
Lemma duplicate_detected (plugins : list Plugin.t) (i j : nat) (p q : Plugin.t) :
  i <> j -> nth_error plugins i = Some p -> nth_error plugins j = Some q ->
  Plugin.name p = Plugin.name q ->
  exists r, In r plugins
    /\ validateUniquePackages plugins = Throw (DuplicateName (Plugin.name r)).
Proof.
  intros Hij Hi Hj Hpq. unfold validateUniquePackages.
  destruct (unique_from [] plugins) as [[]|e] eqn:E.
  - apply unique_from_normal in E. destruct E as [_ Hnodup]. exfalso. apply Hij.
    apply (proj1 (NoDup_nth_error (map Plugin.name plugins)) Hnodup).
    + rewrite length_map. apply nth_error_Some. congruence.
    + rewrite !nth_error_map, Hi, Hj. cbn. congruence.
  - apply unique_from_throw in E. destruct E as (r & Hr & ->). eauto.
Qed.

(** ** What each validator can throw *)

Ltac throws_other :=
  run_checks;
  try discriminate;
  try (intros [= <-]; intros ?; discriminate).

Lemma Basic_base_not_files (plugin : Plugin.t) (e : error) :
  Basic.validateBaseFields plugin = Throw e -> not_missing_files e.
Proof.
  unfold Basic.validateBaseFields. rewrite Basic_required. cbv zeta.
  throws_other.
Qed.

Lemma Extended_base_not_files (plugin : Plugin.t) (e : error) :
  Extended.validateBaseFields plugin = Throw e -> not_missing_files e.
Proof.
  unfold Extended.validateBaseFields. rewrite Extended_required. cbv zeta.
  throws_other.
Qed.

Lemma validateAuthor_not_files (plugin : Plugin.t) (e : error) :
  validateAuthor plugin = Throw e -> not_missing_files e.
Proof.
  unfold validateAuthor. destruct (Plugin.author plugin) as [authors|]; cbn [defined bind].
  - intros H. apply for_of_throw in H. destruct H as (author & _ & H).
    revert H. throws_other.
  - intros [= <-] n. discriminate.
Qed.

Lemma validateRepo_not_files (plugin : Plugin.t) (e : error) :
  validateRepo plugin = Throw e -> not_missing_files e.
Proof.
  unfold validateRepo. destruct (Plugin.repo plugin) as [repos|]; cbn [defined bind].
  - intros H. apply for_of_throw in H. destruct H as (repo & _ & H).
    revert H. throws_other.
  - intros [= <-] n. discriminate.
Qed.

Lemma includes_type_not_app (v : value) :
  includes ["github"; "gitee"; "gitcode"; "gitlab"; "npm"]%string v = true ->
  same v (Some (js "app")) = false.
Proof.
  unfold includes. cbn [existsb]. intros H.
  repeat (apply orb_true_iff in H; destruct H as [H|H]); try discriminate H;
    apply same_eq in H; subst v; reflexivity.
Qed.

Lemma Basic_base_type (plugin : Plugin.t) :
  Basic.validateBaseFields plugin = Normal tt ->
  includes ["github"; "gitee"; "gitcode"; "gitlab"; "npm"]%string (Plugin.type plugin) = true.
Proof.
  destruct (includes _ (Plugin.type plugin)) eqn:E; [reflexivity|].
  unfold Basic.validateBaseFields. rewrite Basic_required. cbv zeta. rewrite E.
  throws_other.
Qed.

Lemma Extended_base_type (plugin : Plugin.t) :
  Extended.validateBaseFields plugin = Normal tt ->
  includes ["github"; "gitee"; "gitcode"; "gitlab"; "npm"]%string (Plugin.type plugin) = true.
Proof.
  destruct (includes _ (Plugin.type plugin)) eqn:E; [reflexivity|].
  unfold Extended.validateBaseFields. rewrite Extended_required. cbv zeta. rewrite E.
  throws_other.
Qed.

(** Once the base fields have passed, the type is a repository kind, and
    the dispatch cannot take the branch of the [app] type. *)
Lemma validateVariant_after_base (plugin : Plugin.t) (e : error) :
  includes ["github"; "gitee"; "gitcode"; "gitlab"; "npm"]%string (Plugin.type plugin) = true ->
  validateVariant plugin = Throw e -> not_missing_files e.
Proof.
  intros H. unfold validateVariant. rewrite (includes_type_not_app _ H).
  destruct (_ || _); [discriminate|]. intros [= <-] n. discriminate.
Qed.

Lemma Basic_never_missing_files (plugin : Plugin.t) (n : value) :
  Basic.validatePlugin plugin <> Throw (MissingFiles n).
Proof.
  unfold Basic.validatePlugin. intros H.
  destruct (Basic.validateBaseFields plugin) as [[]|e] eqn:B; cbn [bind] in H.
  2:{ injection H as ->. exact (Basic_base_not_files _ B eq_refl). }
  destruct (validateAuthor plugin) as [[]|e] eqn:A; cbn [bind] in H.
  2:{ injection H as ->. exact (validateAuthor_not_files _ A eq_refl). }
  destruct (validateRepo plugin) as [[]|e] eqn:R; cbn [bind] in H.
  2:{ injection H as ->. exact (validateRepo_not_files _ R eq_refl). }
  exact (validateVariant_after_base _ (Basic_base_type _ B) H eq_refl).
Qed.

(** ** The remote check *)

Section Remote.
Variable network : nat -> jsstring -> Extended.fetched.

(** Every error of [validatePackageJson] comes wrapped. *)
Lemma validatePackageJson_throw (plugin : Plugin.t) (repo : Repo.t)
  (t t' : Extended.trace) (e : error) :
  Extended.validatePackageJson network plugin repo t = (t', Throw e) ->
  exists cause,
    e = RepositoryCheckFailed (Plugin.name plugin) (Repo.url repo) cause.
Proof.
  unfold Extended.validatePackageJson, Extended.try_catch.
  destruct (_ t) as [t'' [[]|e']]; intros [= _ <-]; eauto.
Qed.

Lemma for_await_throw (A : Type) (body : A -> Extended.IO unit) (l : list A)
  (t t' : Extended.trace) (e : error) :
  Extended.for_await l body t = (t', Throw e) ->
  exists x t1 t2, In x l /\ body x t1 = (t2, Throw e).
Proof.
  revert t. induction l as [|x l IH]; intros t; cbn.
  - unfold Extended.ret. discriminate.
  - unfold Extended.bindIO. destruct (body x t) as [t1 [[]|e']] eqn:E.
    + intros H. apply IH in H. destruct H as (y & u1 & u2 & Hy & H). eauto 6.
    + intros [= _ <-]. eauto 6.
Qed.

(** The requests of one record come after its base fields, its authors and
    its repositories have passed. *)
Lemma requests_after_local (plugin : Plugin.t) (t : Extended.trace) :
  fst (Extended.validatePlugin network plugin t) <> t ->
  Extended.validateBaseFields plugin = Normal tt
  /\ validateAuthor plugin = Normal tt
  /\ validateRepo plugin = Normal tt.
Proof.
  unfold Extended.validatePlugin, Extended.bindIO, Extended.lift.
  destruct (Extended.validateBaseFields plugin) as [[]|e1]; [|cbn; congruence].
  destruct (validateAuthor plugin) as [[]|e2]; [|cbn; congruence].
  destruct (validateRepo plugin) as [[]|e3]; [|cbn; congruence].
  auto.
Qed.

(** C5.  In the second generation, the check of a repository entry whose
    type is [npm] and whose branch is not exactly the empty string fails with
    [UnexpectedBranch], and the check of an entry of another type whose
    branch is absent or empty fails with [MissingBranch]; the error comes
    wrapped with the plugin name and the repository URL, and the trace of
    requests is left as it was: no request is issued. *)
Theorem C5_branch_rule (plugin : Plugin.t) (repo : Repo.t) (t : Extended.trace) :
  (Repo.type repo = Some (js "npm") -> Repo.branch repo <> Some [] ->
   Extended.validatePackageJson network plugin repo t
   = (t, Throw (RepositoryCheckFailed (Plugin.name plugin) (Repo.url repo)
                  (UnexpectedBranch (Plugin.name plugin)))))
  /\ (Repo.type repo <> Some (js "npm") ->
      Repo.branch repo = None \/ Repo.branch repo = Some [] ->
      Extended.validatePackageJson network plugin repo t
      = (t, Throw (RepositoryCheckFailed (Plugin.name plugin) (Repo.url repo)
                     (MissingBranch (Plugin.name plugin) (Repo.type repo))))).
Proof.
  unfold Extended.validatePackageJson, Extended.try_catch. split.
  - intros Ht Hb. rewrite Ht. change (same (Some (js "npm")) (Some (js "npm"))) with true.
    apply same_neq in Hb. rewrite Hb. reflexivity.
  - intros Ht Hb. apply same_neq in Ht. rewrite Ht.
    assert (E : truthy (Repo.branch repo) = false) by (destruct Hb as [-> | ->]; reflexivity).
    unfold Extended.bindIO, Extended.lift. rewrite E. reflexivity.
Qed.

(** C8, as amended.  In the second generation, when the validation of a
    record issues a request, the base fields, the authors and the
    repositories of that record have passed before; the check on the plugin
    type, with the files of an [app] record, runs after the remote checks of
    all the repositories of the record. *)
Theorem C8_requests_after_local_checks (plugin : Plugin.t) (t : Extended.trace) :
  fst (Extended.validatePlugin network plugin t) <> t ->
  (Extended.validateBaseFields plugin = Normal tt
   /\ validateAuthor plugin = Normal tt
   /\ validateRepo plugin = Normal tt)
  /\ exists repos,
       Plugin.repo plugin = Some repos
       /\ Extended.validatePlugin network plugin t
          = Extended.bindIO
              (Extended.for_await repos (Extended.validatePackageJson network plugin))
              (fun _ => Extended.lift (validateVariant plugin)) t.
Proof.
  intros H. assert (L := H). apply requests_after_local in L.
  destruct L as (B & A & R). split; [auto|].
  unfold Extended.validatePlugin, Extended.bindIO, Extended.lift in *.
  rewrite B, A, R in *.
  destruct (Plugin.repo plugin) as [repos|] eqn:E; cbn [defined] in *.
  - exists repos. split; reflexivity.
  - unfold validateRepo in R. rewrite E in R. discriminate R.
Qed.

End Remote.

End ValidatorFacts.

(** ** The type of a plugin and the files of an app *)

Section Variants.
Context {RT : Runtime}.
Variable network : nat -> jsstring -> Extended.fetched.

(** On its own, [validateAppPlugin] asks for a non-empty list of valid
    URLs. *)
Lemma validateAppPlugin_spec (plugin : Plugin.t) :
  (Plugin.files plugin = None \/ Plugin.files plugin = Some [] ->
   validateAppPlugin plugin = Throw (MissingFiles (Plugin.name plugin)))
  /\ (forall files,
        Plugin.files plugin = Some files -> files <> [] ->
        (forall fileUrl, In fileUrl files -> isValidUrl fileUrl = true) ->
        validateAppPlugin plugin = Normal tt).
Proof.
  unfold validateAppPlugin. split.
  - intros [-> | ->]; reflexivity.
  - intros files -> Hne Hall. destruct files as [|f files]; [contradiction|].
    apply for_of_pass. intros x Hx. rewrite (Hall x Hx). reflexivity.
Qed.

Lemma Extended_never_missing_files (plugin : Plugin.t) (t : Extended.trace) (n : value) :
  snd (Extended.validatePlugin network plugin t) <> Throw (MissingFiles n).
Proof.
  unfold Extended.validatePlugin, Extended.bindIO, Extended.lift. intros H.
  destruct (Extended.validateBaseFields plugin) as [[]|e] eqn:B; cbn [snd] in H.
  2:{ injection H as ->. exact (Extended_base_not_files _ B eq_refl). }
  destruct (validateAuthor plugin) as [[]|e] eqn:A; cbn [snd] in H.
  2:{ injection H as ->. exact (validateAuthor_not_files _ A eq_refl). }
  destruct (validateRepo plugin) as [[]|e] eqn:R; cbn [snd] in H.
  2:{ injection H as ->. exact (validateRepo_not_files _ R eq_refl). }
  destruct (defined (Plugin.repo plugin)) as [repos|e] eqn:D; cbn [snd] in H.
  2:{ destruct (Plugin.repo plugin); cbn in D; [discriminate D|].
      injection D as <-. discriminate H. }
  destruct (Extended.for_await repos _ t) as [t' [[]|e]] eqn:F; cbn [snd] in H.
  - exact (validateVariant_after_base _ (Extended_base_type _ B) H eq_refl).
  - apply for_await_throw in F. destruct F as (repo & t1 & t2 & _ & F).
    apply validatePackageJson_throw in F. destruct F as (cause & ->).
    discriminate H.
Qed.

(** C1: the code at a [git] and at an [app] record.  The membership test of
    [validateBaseFields] lists the repository kinds, so the two plugin types
    [git] and [app] fail it with [InvalidVariant] in both generations, and
    [github], which is no plugin type, passes it. *)
Theorem C1_git_and_app_fail_membership :
  Basic.validateBaseFields git_example
  = Throw (InvalidVariant (Plugin.name git_example) (Some (js "git")))
  /\ Basic.validateBaseFields app_example
     = Throw (InvalidVariant (Plugin.name app_example) (Some (js "app")))
  /\ Extended.validateBaseFields git_example
     = Throw (InvalidVariant (Plugin.name git_example) (Some (js "git")))
  /\ Extended.validateBaseFields app_example
     = Throw (InvalidVariant (Plugin.name app_example) (Some (js "app")))
  /\ Basic.validateBaseFields npm_example = Normal tt
  /\ Basic.validateBaseFields github_typed = Normal tt.
Proof. repeat split; vm_compute; reflexivity. Qed.

(** C2: the code at an [app] record.  [validateAppPlugin] reports the
    missing files when it is called, but the validation of a record never
    calls it on a record that passed [validateBaseFields]: no record fails
    with [MissingFiles], an [app] record without files fails with
    [InvalidVariant], and so does an [app] record with a valid file. *)
Theorem C2_app_record_fails_before_files_check :
  (forall plugin n, Basic.validatePlugin plugin <> Throw (MissingFiles n))
  /\ (forall plugin t n,
        snd (Extended.validatePlugin network plugin t) <> Throw (MissingFiles n))
  /\ validateAppPlugin app_without_files
     = Throw (MissingFiles (Plugin.name app_without_files))
  /\ Basic.main [app_without_files]
     = Throw (InvalidVariant (Plugin.name app_without_files) (Some (js "app")))
  /\ Extended.main network [app_without_files] []
     = ([], Throw (InvalidVariant (Plugin.name app_without_files) (Some (js "app"))))
  /\ validateAppPlugin app_example = Normal tt
  /\ Basic.main [app_example]
     = Throw (InvalidVariant (Plugin.name app_example) (Some (js "app"))).
Proof.
  split; [exact Basic_never_missing_files|].
  split; [exact Extended_never_missing_files|].
  repeat split; vm_compute; reflexivity.
Qed.

(** ** Fail-fast order *)

Lemma main_duplicate (plugins : list Plugin.t) (t : Extended.trace) (e : error) :
  validateUniquePackages plugins = Throw e ->
  Basic.main plugins = Throw e /\ Extended.main network plugins t = (t, Throw e).
Proof.
  intros H. unfold Basic.main, Extended.main, Extended.bindIO, Extended.lift.
  rewrite H. split; reflexivity.
Qed.

(** C3.  When two records of a collection have the same name, [main] fails
    with [DuplicateName] whatever else the collection holds: no per-record
    check has run, and in the second generation no request has been
    issued. *)
Theorem C3_duplicate_name_first (plugins : list Plugin.t) (i j : nat)
  (p q : Plugin.t) (t : Extended.trace) :
  i <> j -> nth_error plugins i = Some p -> nth_error plugins j = Some q ->
  Plugin.name p = Plugin.name q ->
  exists r,
    In r plugins
    /\ validateUniquePackages plugins = Throw (DuplicateName (Plugin.name r))
    /\ Basic.main plugins = Throw (DuplicateName (Plugin.name r))
    /\ Extended.main network plugins t = (t, Throw (DuplicateName (Plugin.name r))).
Proof.
  intros Hij Hi Hj Hpq.
  destruct (duplicate_detected plugins Hij Hi Hj Hpq) as (r & Hr & H).
  exists r. destruct (main_duplicate plugins t H). auto.
Qed.

(** C10.  When two records of a collection have no name, [main] fails with
    [DuplicateName]: the two absent names are the same [undefined].  No
    [MissingField] is reported, and in the second generation no request has
    been issued. *)
Theorem C10_absent_names_collide (plugins : list Plugin.t) (i j : nat)
  (p q : Plugin.t) (t : Extended.trace) :
  i <> j -> nth_error plugins i = Some p -> nth_error plugins j = Some q ->
  Plugin.name p = None -> Plugin.name q = None ->
  exists n,
    validateUniquePackages plugins = Throw (DuplicateName n)
    /\ Basic.main plugins = Throw (DuplicateName n)
    /\ Extended.main network plugins t = (t, Throw (DuplicateName n)).
Proof.
  intros Hij Hi Hj Hp Hq.
  assert (Hpq : Plugin.name p = Plugin.name q) by congruence.
  destruct (duplicate_detected plugins Hij Hi Hj Hpq) as (r & _ & H).
  exists (Plugin.name r). destruct (main_duplicate plugins t H). auto.
Qed.

End Variants.

(* ================================================================= *)
(** * The properties at concrete registries *)

(** C3 at a collection whose first record shares its name with the third,
    and whose second record has an invalid time stamp. *)
Lemma C3_fail_fast_witness :
  exists r,
    In r [npm_example; bad_time_example; npm_example]
    /\ validateUniquePackages [npm_example; bad_time_example; npm_example]
       = Throw (DuplicateName (Plugin.name r))
    /\ @Basic.main ascii_runtime [npm_example; bad_time_example; npm_example]
       = Throw (DuplicateName (Plugin.name r))
    /\ @Extended.main ascii_runtime network_ok
         [npm_example; bad_time_example; npm_example] []
       = ([], Throw (DuplicateName (Plugin.name r))).
Proof.
  apply (@C3_duplicate_name_first ascii_runtime network_ok
           [npm_example; bad_time_example; npm_example] 0 2 npm_example npm_example []).
  - discriminate.
  - reflexivity.
  - reflexivity.
  - reflexivity.
Defined.

(** The same collection, evaluated: the duplicate is what is reported,
    although the second record on its own fails on its time stamp. *)
Example fail_fast_ordering :
  @Basic.main ascii_runtime [npm_example; bad_time_example; npm_example]
  = Throw (DuplicateName (Some (js "karin-plugin-basic")))
  /\ @Basic.validatePlugin ascii_runtime bad_time_example
     = Throw (InvalidTimestamp (Some (js "karin-plugin-other"))).
Proof. split; vm_compute; reflexivity. Qed.

(** C5 at an [npm] entry with a branch and at a [github] entry with an empty
    branch. *)
Lemma C5_branch_rule_witness :
  @Extended.validatePackageJson network_ok npm_example npm_with_branch []
  = ([], Throw (RepositoryCheckFailed (Plugin.name npm_example) (Repo.url npm_with_branch)
                  (UnexpectedBranch (Plugin.name npm_example))))
  /\ @Extended.validatePackageJson network_ok npm_example github_without_branch []
     = ([], Throw (RepositoryCheckFailed (Plugin.name npm_example)
                     (Repo.url github_without_branch)
                     (MissingBranch (Plugin.name npm_example) (Some (js "github"))))).
Proof.
  split.
  - apply (proj1 (@C5_branch_rule network_ok npm_example npm_with_branch [])).
    + reflexivity.
    + discriminate.
  - apply (proj2 (@C5_branch_rule network_ok npm_example github_without_branch [])).
    + intros H. cbv in H. discriminate H.
    + right. reflexivity.
Defined.

(** C6 at a description of 51 characters. *)
Lemma C6_description_bound_witness :
  @Basic.validateBaseFields ascii_runtime fifty_one_example
  = Throw (DescriptionTooLong (Plugin.name fifty_one_example)).
Proof.
  refine (proj1 (@C6_description_bound ascii_runtime fifty_one_example
                   (js (fifty ++ "1")) eq_refl) _ _ _).
  - intros field H. cbn in H.
    repeat (destruct H as [<- | H]; [reflexivity|]). contradiction.
  - vm_compute. reflexivity.
  - vm_compute. repeat constructor.
Defined.

(** A description of exactly 50 characters passes the whole of
    [validateBaseFields]. *)
Example fifty_characters_pass :
  List.length (js fifty) = 50
  /\ @Basic.validateBaseFields ascii_runtime fifty_example = Normal tt
  /\ @Extended.validateBaseFields ascii_runtime fifty_example = Normal tt.
Proof. repeat split; vm_compute; reflexivity. Qed.

(** C8 at a record of type [npm] with one [github] repository. *)
Lemma C8_requests_after_local_checks_witness :
  (@Extended.validateBaseFields ascii_runtime npm_example = Normal tt
   /\ @validateAuthor ascii_runtime npm_example = Normal tt
   /\ @validateRepo ascii_runtime npm_example = Normal tt)
  /\ exists repos,
       Plugin.repo npm_example = Some repos
       /\ @Extended.validatePlugin ascii_runtime network_ok npm_example []
          = Extended.bindIO
              (Extended.for_await repos
                 (@Extended.validatePackageJson network_ok npm_example))
              (fun _ => Extended.lift (@validateVariant ascii_runtime npm_example)) [].
Proof.
  apply (@C8_requests_after_local_checks ascii_runtime network_ok npm_example []).
  intros H. vm_compute in H. discriminate H.
Defined.

(** C8, as stated, fails: the record of type [github] has its
    [package.json] requested, and only then does the check on the plugin type
    reject it. *)
Lemma C8_request_before_variant_check :
  fst (@Extended.validatePlugin ascii_runtime network_ok github_typed [])
  = [js "https://raw.githubusercontent.com/karinjs/karin-plugin-basic/main/package.json"]
  /\ @validateVariant ascii_runtime github_typed
     = Throw (InvalidVariant (Plugin.name github_typed) (Some (js "github")))
  /\ snd (@Extended.validatePlugin ascii_runtime network_ok github_typed [])
     = Throw (InvalidVariant (Plugin.name github_typed) (Some (js "github"))).
Proof. repeat split; vm_compute; reflexivity. Qed.

(** C9 at a record with an empty description. *)
Lemma C9_empty_description_witness :
  @Basic.validateBaseFields ascii_runtime empty_description_example
  = Throw (MissingField (js "karin-plugin-basic") "description")
  /\ @Extended.validateBaseFields ascii_runtime empty_description_example
     = Throw (MissingField (js "karin-plugin-basic") "description").
Proof.
  apply (proj1 (proj2 (proj2 (proj2
           (@C9_empty_string_is_missing ascii_runtime empty_description_example)))));
    reflexivity.
Defined.

(** C10 at a collection of two records without a name. *)
Lemma C10_absent_names_witness :
  exists n,
    validateUniquePackages [nameless "first"; nameless "second"]
    = Throw (DuplicateName n)
    /\ @Basic.main ascii_runtime [nameless "first"; nameless "second"]
       = Throw (DuplicateName n)
    /\ @Extended.main ascii_runtime network_ok [nameless "first"; nameless "second"] []
       = ([], Throw (DuplicateName n)).
Proof.
  apply (@C10_absent_names_collide ascii_runtime network_ok
           [nameless "first"; nameless "second"] 0 1
           (nameless "first") (nameless "second") []).
  - discriminate.
  - reflexivity.
  - reflexivity.
  - reflexivity.
  - reflexivity.
Defined.

(** The same collection, evaluated: the name reported is [undefined], and
    each record on its own fails with [MissingField]. *)
Example absent_names_evaluated :
  @Basic.main ascii_runtime [nameless "first"; nameless "second"]
  = Throw (DuplicateName None)
  /\ @Basic.validatePlugin ascii_runtime (nameless "first")
     = Throw (MissingField unknown "name").
Proof. split; vm_compute; reflexivity. Qed.

(* ================================================================= *)
(** * Further properties of the validators *)

(** ** Loops, once more *)

Lemma for_of_app (A : Type) (body : A -> completion unit) (pre rest : list A) :
  (forall x, In x pre -> body x = Normal tt) ->
  for_of (pre ++ rest) body = for_of rest body.
Proof.
  induction pre as [|x pre IH]; cbn; intros H; [reflexivity|].
  rewrite (H x) by auto. cbn. apply IH. auto.
Qed.

Lemma for_of_normal (A : Type) (body : A -> completion unit) (l : list A) :
  for_of l body = Normal tt <-> forall x, In x l -> body x = Normal tt.
Proof.
  split; [|apply for_of_pass].
  induction l as [|x l IH]; cbn; [tauto|].
  destruct (body x) as [[]|e] eqn:E; cbn; [|discriminate].
  intros H y [<- | Hy]; auto.
Qed.

(** ** Uniqueness, exactly *)

Lemma existsb_same_true (v : value) (names : list value) :
  In v names -> existsb (same v) names = true.
Proof.
  intros H. apply existsb_exists. exists v. split; [exact H | apply same_refl].
Qed.

Lemma existsb_same_not_in (v : value) (names : list value) :
  ~ In v names -> existsb (same v) names = false.
Proof.
  intros H. destruct (existsb (same v) names) eqn:E; [|reflexivity].
  apply existsb_exists in E. destruct E as (w & Hw & E).
  apply same_eq in E. subst w. contradiction.
Qed.

(** The records that pass hand their names over to the set. *)
Lemma unique_from_app (pre rest : list Plugin.t) (names : list value) :
  (forall v, In v names -> ~ In v (map Plugin.name pre)) ->
  NoDup (map Plugin.name pre) ->
  unique_from names (pre ++ rest) = unique_from (names ++ map Plugin.name pre) rest.
Proof.
  revert names. induction pre as [|p pre IH]; intros names Hdis Hnd; cbn.
  - now rewrite app_nil_r.
  - inversion Hnd as [|? ? Hp Hpre]; subst.
    rewrite existsb_same_not_in.
    2:{ intros Hin. apply (Hdis _ Hin). left. reflexivity. }
    rewrite IH; [now rewrite <- app_assoc | | exact Hpre].
    intros v Hv Hin. apply in_app_or in Hv. destruct Hv as [Hv | [<- | []]].
    + apply (Hdis v Hv). right. exact Hin.
    + contradiction.
Qed.

(** X1.  [validateUniquePackages] passes exactly when no two records of the
    collection have the same name, an absent name counting as a name. *)
Theorem validateUniquePackages_iff_NoDup (plugins : list Plugin.t) :
  validateUniquePackages plugins = Normal tt <-> NoDup (map Plugin.name plugins).
Proof.
  unfold validateUniquePackages. split.
  - intros H. apply unique_from_normal in H. tauto.
  - intros H. rewrite <- (app_nil_r plugins). rewrite unique_from_app; auto.
Qed.

(** X2.  [validateUniquePackages] stops at the first record whose name has
    been seen before, and reports the name of that record: the records
    after it play no part. *)
Theorem validateUniquePackages_first_duplicate
  (pre post : list Plugin.t) (p : Plugin.t) :
  NoDup (map Plugin.name pre) ->
  In (Plugin.name p) (map Plugin.name pre) ->
  validateUniquePackages (pre ++ p :: post) = Throw (DuplicateName (Plugin.name p)).
Proof.
  intros Hnd Hin. unfold validateUniquePackages.
  rewrite unique_from_app; auto. cbn.
  now rewrite existsb_same_true.
Qed.

Section Entries.
Context {RT : Runtime}.

Lemma author_body_normal (plugin : Plugin.t) (author : Author.t) :
  (check (negb (truthy (Author.name author)))
         (MissingAuthorName (Plugin.name plugin)) ;;
   check (negb (truthy (Author.home author))
          || negb (isValidUrl (ToString (Author.home author))))
         (InvalidAuthorHomepage (Plugin.name plugin))) = Normal tt
  <-> author_ok author = true.
Proof.
  unfold author_ok.
  destruct (truthy (Author.name author)), (truthy (Author.home author)),
    (isValidUrl (ToString (Author.home author))); cbn; split;
    (reflexivity || discriminate).
Qed.

Lemma repo_body_normal (plugin : Plugin.t) (repo : Repo.t) :
  (check (negb (includes validTypes (Repo.type repo)))
         (InvalidRepoKind (Plugin.name plugin) (Repo.type repo)) ;;
   check (negb (truthy (Repo.url repo))
          || negb (isValidUrl (ToString (Repo.url repo))))
         (InvalidRepoUrl (Plugin.name plugin))) = Normal tt
  <-> repo_ok repo = true.
Proof.
  unfold repo_ok.
  destruct (includes validTypes (Repo.type repo)), (truthy (Repo.url repo)),
    (isValidUrl (ToString (Repo.url repo))); cbn; split;
    (reflexivity || discriminate).
Qed.

Lemma validateAuthor_normal (plugin : Plugin.t) :
  validateAuthor plugin = Normal tt <->
  exists authors,
    Plugin.author plugin = Some authors
    /\ forall author, In author authors -> author_ok author = true.
Proof.
  unfold validateAuthor.
  destruct (Plugin.author plugin) as [authors|]; cbn [defined bind].
  - rewrite for_of_normal. split.
    + intros H. exists authors. split; [reflexivity|].
      intros a Ha. apply (author_body_normal plugin). auto.
    + intros (l & [= <-] & H) a Ha. apply author_body_normal. auto.
  - split; [discriminate | intros (l & E & _); discriminate].
Qed.

Lemma validateRepo_normal (plugin : Plugin.t) :
  validateRepo plugin = Normal tt <->
  exists repos,
    Plugin.repo plugin = Some repos
    /\ forall repo, In repo repos -> repo_ok repo = true.
Proof.
  unfold validateRepo.
  destruct (Plugin.repo plugin) as [repos|]; cbn [defined bind].
  - rewrite for_of_normal. split.
    + intros H. exists repos. split; [reflexivity|].
      intros r Hr. apply (repo_body_normal plugin). auto.
    + intros (l & [= <-] & H) r Hr. apply repo_body_normal. auto.
  - split; [discriminate | intros (l & E & _); discriminate].
Qed.

(** X3.  [validateAuthor] passes exactly when the record has a list of
    authors and every author has a name and a home page that is a valid URL;
    an empty list passes.  Otherwise the first author at fault decides the
    error: [MissingAuthorName] when the name is missing, whatever the home
    page, [InvalidAuthorHomepage] when only the home page is at fault. *)
Theorem validateAuthor_outcome (plugin : Plugin.t) :
  (validateAuthor plugin = Normal tt <->
   exists authors,
     Plugin.author plugin = Some authors
     /\ forall author, In author authors -> author_ok author = true)
  /\ (forall pre author post,
        Plugin.author plugin = Some (pre ++ author :: post) ->
        (forall a, In a pre -> author_ok a = true) ->
        author_ok author = false ->
        validateAuthor plugin
        = Throw (if truthy (Author.name author)
                 then InvalidAuthorHomepage (Plugin.name plugin)
                 else MissingAuthorName (Plugin.name plugin))).
Proof.
  split; [apply validateAuthor_normal|]. unfold validateAuthor.
  intros pre author post -> Hpre Hbad. cbn [defined bind].
    rewrite for_of_app.
    2:{ intros a Ha. apply author_body_normal. auto. }
    cbn [for_of]. unfold author_ok in Hbad.
    destruct (truthy (Author.name author)); cbn; [|reflexivity].
    destruct (truthy (Author.home author)); cbn; [|reflexivity].
    cbn in Hbad. rewrite Hbad. reflexivity.
Qed.

(** X4.  [validateRepo] passes exactly when the record has a list of
    repositories and every repository has one of the five kinds and a valid
    URL; the branch is not looked at.  Otherwise the first repository at
    fault decides the error: [InvalidRepoKind] when the kind is wrong,
    whatever the URL, [InvalidRepoUrl] when only the URL is at fault. *)
Theorem validateRepo_outcome (plugin : Plugin.t) :
  (validateRepo plugin = Normal tt <->
   exists repos,
     Plugin.repo plugin = Some repos
     /\ forall repo, In repo repos -> repo_ok repo = true)
  /\ (forall pre repo post,
        Plugin.repo plugin = Some (pre ++ repo :: post) ->
        (forall r, In r pre -> repo_ok r = true) ->
        repo_ok repo = false ->
        validateRepo plugin
        = Throw (if includes validTypes (Repo.type repo)
                 then InvalidRepoUrl (Plugin.name plugin)
                 else InvalidRepoKind (Plugin.name plugin) (Repo.type repo))).
Proof.
  split; [apply validateRepo_normal|]. unfold validateRepo.
  intros pre repo post -> Hpre Hbad. cbn [defined bind].
    rewrite for_of_app.
    2:{ intros r Hr. apply repo_body_normal. auto. }
    cbn [for_of]. unfold repo_ok in Hbad.
    destruct (includes validTypes (Repo.type repo)); cbn; [|reflexivity].
    destruct (truthy (Repo.url repo)); cbn; [|reflexivity].
    cbn in Hbad. rewrite Hbad. reflexivity.
Qed.

(** X5.  [validateAppPlugin] passes exactly when [files] is a non-empty list
    of valid URLs; with a longer list it fails on the first invalid URL with
    [InvalidFileUrl], which carries that URL. *)
Theorem validateAppPlugin_outcome (plugin : Plugin.t) :
  (validateAppPlugin plugin = Normal tt <->
   exists files,
     Plugin.files plugin = Some files /\ files <> []
     /\ forall fileUrl, In fileUrl files -> isValidUrl fileUrl = true)
  /\ (forall pre fileUrl post,
        Plugin.files plugin = Some (pre ++ fileUrl :: post) ->
        (forall u, In u pre -> isValidUrl u = true) ->
        isValidUrl fileUrl = false ->
        validateAppPlugin plugin = Throw (InvalidFileUrl (Plugin.name plugin) fileUrl)).
Proof.
  assert (body : forall u,
    check (negb (isValidUrl u)) (InvalidFileUrl (Plugin.name plugin) u) = Normal tt
    <-> isValidUrl u = true).
  { intros u. destruct (isValidUrl u); cbn; split; (reflexivity || discriminate). }
  unfold validateAppPlugin. split.
  - destruct (Plugin.files plugin) as [[|f files]|].
    + split; [discriminate | intros (l & [= <-] & H & _); contradiction].
    + rewrite for_of_normal. split.
      * intros H. exists (f :: files). split; [reflexivity|]. split; [discriminate|].
        intros u Hu. apply body. auto.
      * intros (l & [= <-] & _ & H) u Hu. apply body. auto.
    + split; [discriminate | intros (l & E & _); discriminate].
  - intros pre fileUrl post -> Hpre Hbad.
    assert (E : for_of (pre ++ fileUrl :: post)
                  (fun u => check (negb (isValidUrl u))
                              (InvalidFileUrl (Plugin.name plugin) u))
                = Throw (InvalidFileUrl (Plugin.name plugin) fileUrl)).
    { rewrite for_of_app by (intros u Hu; apply body; auto).
      cbn [for_of]. rewrite Hbad. reflexivity. }
    destruct pre; exact E.
Qed.

End Entries.

Section Records.
Context {RT : Runtime}.

Lemma includes_truthy (l : list string) (v : value) :
  (forall t, In t l -> t <> EmptyString) -> includes l v = true -> truthy v = true.
Proof.
  unfold includes. intros Hl H. apply existsb_exists in H.
  destruct H as (t & Ht & E). apply same_eq in E. subst v.
  destruct t as [|a t]; [exfalso; exact (Hl _ Ht eq_refl) | reflexivity].
Qed.

Lemma kinds_truthy (v : value) :
  includes ["github"; "gitee"; "gitcode"; "gitlab"; "npm"]%string v = true ->
  truthy v = true.
Proof.
  apply includes_truthy. intros t Ht. cbn in Ht.
  repeat (destruct Ht as [<- | Ht]; [discriminate|]). contradiction.
Qed.

Lemma valid_time_truthy (v : value) :
  isValidTimeFormat (ToString v) = true -> truthy v = true.
Proof.
  destruct v as [[|c s]|]; cbn [ToString truthy]; [|reflexivity|];
    intros H; vm_compute in H; discriminate H.
Qed.

Lemma nonempty_truthy (s : jsstring) : s <> [] -> truthy (Some s) = true.
Proof. destruct s; [contradiction | reflexivity]. Qed.

Lemma truthy_inv (v : value) :
  truthy v = true -> exists s, v = Some s /\ s <> [].
Proof.
  destruct v as [[|c s]|]; cbn; try discriminate.
  intros _. exists (c :: s). split; [reflexivity | discriminate].
Qed.

(** Reads the conditions that a run to completion went through. *)
Ltac passed H :=
  repeat (cbn [bind check negb defined] in H;
          match type of H with
          | context [check (negb ?b) _] =>
              destruct b eqn:?; cbn [bind check negb] in H; [|discriminate H]
          | context [check ?b _] =>
              destruct b eqn:?; cbn [bind check] in H; [discriminate H|]
          | context [defined ?v] =>
              destruct v eqn:?; cbn [bind defined] in H; [|discriminate H]
          end).

Lemma list_check (A : Type) (v : option (list A)) :
  negb (present v) || match v with Some [] => true | _ => false end = false ->
  exists l, v = Some l /\ l <> [].
Proof.
  destruct v as [[|x l]|]; cbn; try discriminate.
  intros _. exists (x :: l). split; [reflexivity | discriminate].
Qed.

Lemma list_check_pass (A : Type) (v : option (list A)) (l : list A) :
  v = Some l -> l <> [] ->
  negb (present v) || match v with Some [] => true | _ => false end = false.
Proof. intros -> H. destruct l; [contradiction | reflexivity]. Qed.

Lemma Basic_base_normal (plugin : Plugin.t) :
  Basic.validateBaseFields plugin = Normal tt <-> base_fields_ok plugin.
Proof.
  unfold Basic.validateBaseFields, base_fields_ok. rewrite Basic_required. cbv zeta. split.
  - intros H. passed H.
    repeat match goal with
    | E : _ || _ = false |- _ => apply orb_false_iff in E; destruct E
    | E : negb _ = false |- _ => apply negb_false_iff in E
    end.
    match goal with E : Nat.ltb 50 _ = false |- _ => apply Nat.ltb_ge in E end.
    split; [reflexivity|]. split; [reflexivity|].
    split.
    { eexists. split; [reflexivity|]. split; [|assumption].
      intros ->. discriminate. }
    split; [eexists; repeat split; eauto|].
    split; [reflexivity|].
    split; [apply list_check | apply list_check];
      match goal with E : present ?v = true |- context [?v] => rewrite E end;
      assumption.
  - intros (Hn & Ht & (d & Ed & Hd & Hlen) & (l & El & Hl1 & Hl2 & Hl3) & Htime
            & (a & Ea & Ha) & (r & Er & Hr)).
    rewrite Hn, (kinds_truthy _ Ht), Ed, (nonempty_truthy Hd), El,
      (valid_time_truthy _ Htime), Htime, Ea, Er, Ht.
    cbn [present negb check bind defined].
    rewrite (proj2 (Nat.ltb_ge _ _) Hlen), Hl1, Hl2, Hl3.
    destruct a; [contradiction|]. destruct r; [contradiction|]. reflexivity.
Qed.

Lemma Extended_base_normal (plugin : Plugin.t) :
  Extended.validateBaseFields plugin = Normal tt
  <-> base_fields_ok plugin /\ home_ok plugin.
Proof.
  unfold Extended.validateBaseFields, base_fields_ok, home_ok.
  rewrite Extended_required. cbv zeta. split.
  - intros H. passed H.
    repeat match goal with
    | E : _ || _ = false |- _ => apply orb_false_iff in E; destruct E
    | E : negb _ = false |- _ => apply negb_false_iff in E
    end.
    match goal with E : Nat.ltb 50 _ = false |- _ => apply Nat.ltb_ge in E end.
    split.
    + split; [reflexivity|]. split; [reflexivity|].
      split.
      { eexists. split; [reflexivity|]. split; [|assumption].
        intros ->. discriminate. }
      split; [eexists; repeat split; eauto|].
      split; [reflexivity|].
      split; [apply list_check | apply list_check];
        match goal with E : present ?v = true |- context [?v] => rewrite E end;
        assumption.
    + match goal with E : truthy (Plugin.home plugin) = true |- _ =>
        apply truthy_inv in E; destruct E as (h & Eh & Hh) end.
      exists h. rewrite Eh in *. auto.
  - intros [(Hn & Ht & (d & Ed & Hd & Hlen) & (l & El & Hl1 & Hl2 & Hl3) & Htime
             & (a & Ea & Ha) & (r & Er & Hr)) (h & Eh & Hh & Hurl)].
    rewrite Hn, (kinds_truthy _ Ht), Ed, (nonempty_truthy Hd), El,
      (valid_time_truthy _ Htime), Htime, Ea, Er, Ht, Eh, (nonempty_truthy Hh).
    cbn [present negb check bind defined ToString].
    rewrite (proj2 (Nat.ltb_ge _ _) Hlen), Hl1, Hl2, Hl3, Hurl.
    destruct a; [contradiction|]. destruct r; [contradiction|]. reflexivity.
Qed.

(** X6.  [validateBaseFields] of the first generation passes exactly when
    the record has a name, a type among the five repository kinds, a
    non-empty description of at most 50 code units, a license with a name
    and a valid URL, a valid time stamp, and a non-empty list of authors and
    of repositories.  The second generation passes exactly when the first
    does and the home page is a valid URL. *)
Theorem validateBaseFields_accepts (plugin : Plugin.t) :
  (Basic.validateBaseFields plugin = Normal tt <-> base_fields_ok plugin)
  /\ (Extended.validateBaseFields plugin = Normal tt
      <-> Basic.validateBaseFields plugin = Normal tt /\ home_ok plugin).
Proof.
  split; [apply Basic_base_normal|].
  rewrite Extended_base_normal, Basic_base_normal. tauto.
Qed.

End Records.

Section RecordErrors.
Context {RT : Runtime}.










(** Once the base fields have passed, the dispatch accepts the type [npm]
    alone. *)
Lemma validateVariant_npm (plugin : Plugin.t) :
  base_fields_ok plugin ->
  (validateVariant plugin = Normal tt <-> Plugin.type plugin = Some (js "npm")).
Proof.
  intros (_ & Ht & _). unfold validateVariant.
  rewrite (includes_type_not_app _ Ht).
  unfold includes in Ht. cbn [existsb] in Ht.
  repeat (apply orb_true_iff in Ht; destruct Ht as [Ht|Ht]); try discriminate Ht;
    apply same_eq in Ht; rewrite Ht; split; intros H;
    solve [reflexivity | discriminate H | vm_compute in H; discriminate H].
Qed.


(** X8.  The first generation accepts a record exactly when its base fields
    pass, all its authors and all its repositories pass, and its type is
    [npm]: no record of another type is accepted. *)
Theorem Basic_validatePlugin_accepts (plugin : Plugin.t) :
  Basic.validatePlugin plugin = Normal tt
  <-> base_fields_ok plugin
      /\ (forall authors, Plugin.author plugin = Some authors ->
          forall author, In author authors -> author_ok author = true)
      /\ (forall repos, Plugin.repo plugin = Some repos ->
          forall repo, In repo repos -> repo_ok repo = true)
      /\ Plugin.type plugin = Some (js "npm").
Proof.
  unfold Basic.validatePlugin. split.
  - intros H.
    destruct (Basic.validateBaseFields plugin) as [[]|e0] eqn:B; [|discriminate H].
    destruct (validateAuthor plugin) as [[]|e1] eqn:A; [|discriminate H].
    destruct (validateRepo plugin) as [[]|e2] eqn:R; [|discriminate H].
    cbn [bind] in H. apply Basic_base_normal in B.
    apply validateAuthor_normal in A. destruct A as (authors & Ea & Ha).
    apply validateRepo_normal in R. destruct R as (repos & Er & Hr).
    split; [exact B|]. split; [|split].
    + intros l El. rewrite Ea in El. injection El as <-. exact Ha.
    + intros l El. rewrite Er in El. injection El as <-. exact Hr.
    + apply validateVariant_npm; assumption.
  - intros (B & Ha & Hr & Ht).
    rewrite (proj2 (Basic_base_normal plugin) B). cbn [bind].
    destruct B as (B1 & B2 & B3 & B4 & B5 & (authors & Ea & Hane) & (repos & Er & Hrne)).
    rewrite (proj2 (validateAuthor_normal plugin)) by eauto. cbn [bind].
    rewrite (proj2 (validateRepo_normal plugin)) by eauto. cbn [bind].
    unfold validateVariant. rewrite Ht. reflexivity.
Qed.

End RecordErrors.

Section Runs.
Context {RT : Runtime}.

Lemma with_files_variant (plugin : Plugin.t) (files : option (list jsstring)) :
  includes ["github"; "gitee"; "gitcode"; "gitlab"; "npm"]%string (Plugin.type plugin) = true ->
  validateVariant (with_files plugin files) = validateVariant plugin.
Proof.
  intros H. unfold validateVariant. cbn [with_files Plugin.type Plugin.name].
  rewrite (includes_type_not_app _ H). reflexivity.
Qed.

(** X9.  The list of files of a record is never read by the validation of a
    record: replacing it, or removing it, changes neither the outcome nor,
    in the second generation, the requests. *)
Theorem files_are_never_read (plugin : Plugin.t) (files : option (list jsstring)) :
  Basic.validatePlugin (with_files plugin files) = Basic.validatePlugin plugin
  /\ forall network t,
       Extended.validatePlugin network (with_files plugin files) t
       = Extended.validatePlugin network plugin t.
Proof.
  split.
  - unfold Basic.validatePlugin.
    change (Basic.validateBaseFields (with_files plugin files))
      with (Basic.validateBaseFields plugin).
    change (validateAuthor (with_files plugin files)) with (validateAuthor plugin).
    change (validateRepo (with_files plugin files)) with (validateRepo plugin).
    destruct (Basic.validateBaseFields plugin) as [[]|e] eqn:B; [|reflexivity].
    cbn [bind]. rewrite with_files_variant; [reflexivity|].
    apply Basic_base_normal in B. apply B.
  - intros network t. unfold Extended.validatePlugin, Extended.bindIO, Extended.lift.
    change (Extended.validateBaseFields (with_files plugin files))
      with (Extended.validateBaseFields plugin).
    change (validateAuthor (with_files plugin files)) with (validateAuthor plugin).
    change (validateRepo (with_files plugin files)) with (validateRepo plugin).
    change (Plugin.repo (with_files plugin files)) with (Plugin.repo plugin).
    destruct (Extended.validateBaseFields plugin) as [[]|e] eqn:B; [|reflexivity].
    rewrite with_files_variant; [reflexivity|].
    apply Extended_base_normal in B. apply B.
Qed.

Lemma unique_of_NoDup (plugins : list Plugin.t) :
  NoDup (map Plugin.name plugins) -> validateUniquePackages plugins = Normal tt.
Proof.
  intros H. unfold validateUniquePackages. rewrite <- (app_nil_r plugins).
  rewrite unique_from_app; auto.
Qed.

Lemma Basic_main_normal (plugins : list Plugin.t) :
  Basic.main plugins = Normal tt <->
  NoDup (map Plugin.name plugins)
  /\ forall plugin, In plugin plugins -> Basic.validatePlugin plugin = Normal tt.
Proof.
  unfold Basic.main. split.
  - intros H.
    destruct (validateUniquePackages plugins) as [[]|e] eqn:U; [|discriminate H].
    cbn [bind] in H. split.
    + unfold validateUniquePackages in U. apply unique_from_normal in U. tauto.
    + apply for_of_normal. exact H.
  - intros [Hnd Hall]. rewrite (unique_of_NoDup _ Hnd). cbn [bind].
    apply for_of_normal. exact Hall.
Qed.

(** X10.  The first generation of [main] succeeds exactly when the names are
    pairwise distinct and every record passes; when the names are distinct,
    it fails with the error of the first record that fails, and the records
    after it are not validated. *)
Theorem Basic_main_outcome (plugins : list Plugin.t) :
  (Basic.main plugins = Normal tt <->
   NoDup (map Plugin.name plugins)
   /\ forall plugin, In plugin plugins -> Basic.validatePlugin plugin = Normal tt)
  /\ (forall pre plugin post e,
        plugins = pre ++ plugin :: post ->
        NoDup (map Plugin.name plugins) ->
        (forall p, In p pre -> Basic.validatePlugin p = Normal tt) ->
        Basic.validatePlugin plugin = Throw e ->
        Basic.main plugins = Throw e).
Proof.
  split; [apply Basic_main_normal|].
  intros pre plugin post e -> Hnd Hpre Hp. unfold Basic.main.
  rewrite (unique_of_NoDup _ Hnd). cbn [bind]. rewrite for_of_app by exact Hpre.
  cbn [for_of]. rewrite Hp. reflexivity.
Qed.

(** X18.  Whether the first generation of [main] accepts a collection does
    not depend on the order of its records. *)
Theorem Basic_main_order_independent (plugins plugins' : list Plugin.t) :
  Permutation plugins plugins' ->
  (Basic.main plugins = Normal tt <-> Basic.main plugins' = Normal tt).
Proof.
  intros P. rewrite !Basic_main_normal. split; intros [Hnd Hall]; split.
  - apply (Permutation_NoDup (Permutation_map Plugin.name P) Hnd).
  - intros p Hp. apply Hall. apply (Permutation_in _ (Permutation_sym P) Hp).
  - apply (Permutation_NoDup (Permutation_map Plugin.name (Permutation_sym P)) Hnd).
  - intros p Hp. apply Hall. apply (Permutation_in _ P Hp).
Qed.

End Runs.

(** ** The address of [package.json] *)

Lemma replace_absent (pat rep s : jsstring) :
  (forall k, strip_prefix pat (skipn k s) = None) -> replace pat rep s = s.
Proof.
  induction s as [|c s IH]; intros H; pose proof (H 0) as H0; cbn [skipn] in H0;
    cbn [replace]; rewrite H0; [reflexivity|].
  f_equal. apply IH. intros k. exact (H (S k)).
Qed.

(** X11.  [getRawFileUrl]: for [gitee], [gitlab] and [gitcode] the address is
    the repository URL followed by [/raw/<branch>/package.json]; for a
    [github] URL that starts with [https://github.com] the host becomes
    [raw.githubusercontent.com] and [/<branch>/package.json] follows the
    path; a [github] URL in which [github.com] does not occur is left as it
    is before that suffix; a type outside the five kinds throws. *)
Theorem getRawFileUrl_outcome (repo : Repo.t) :
  (forall url,
     Repo.url repo = Some url ->
     Repo.type repo = Some (js "gitee") \/ Repo.type repo = Some (js "gitlab")
     \/ Repo.type repo = Some (js "gitcode") ->
     Extended.getRawFileUrl repo
     = Normal (url ++ js "/raw" ++ package_json (Repo.branch repo)))
  /\ (forall path,
        Repo.type repo = Some (js "github") ->
        Repo.url repo = Some (js "https://github.com" ++ path) ->
        Extended.getRawFileUrl repo
        = Normal (js "https://raw.githubusercontent.com" ++ path
                  ++ package_json (Repo.branch repo)))
  /\ (forall url,
        Repo.type repo = Some (js "github") ->
        Repo.url repo = Some url ->
        (forall k, strip_prefix (js "github.com") (skipn k url) = None) ->
        Extended.getRawFileUrl repo = Normal (url ++ package_json (Repo.branch repo)))
  /\ (includes validTypes (Repo.type repo) = false ->
      Extended.getRawFileUrl repo = Throw (UnsupportedRepoType (Repo.type repo))).
Proof.
  unfold Extended.getRawFileUrl, package_json. split; [|split; [|split]].
  - intros url Hu Ht. rewrite Hu. destruct Ht as [Ht | [Ht | Ht]]; rewrite Ht; cbn [ToString]; rewrite <- ?app_assoc; reflexivity.
  - intros path -> ->. cbn [defined bind].
    change (same (Some (js "github")) (Some (js "github"))) with true. cbv iota.
    cbn [replace strip_prefix app js map list_ascii_of_string].
    f_equal.
  - intros url -> -> H. cbn [defined bind].
    change (same (Some (js "github")) (Some (js "github"))) with true. cbv iota.
    rewrite replace_absent by exact H. reflexivity.
  - intros H. unfold includes, validTypes in H. cbn [existsb] in H.
    repeat (apply orb_false_iff in H; destruct H as [? H]).
    repeat match goal with E : same _ _ = false |- _ => rewrite E; clear E end.
    reflexivity.
Qed.

Section Traces.
Context {RT : Runtime}.
Variable network : nat -> jsstring -> Extended.fetched.

Lemma adds_lift (A : Type) (c : completion A) : adds_at_most 0 (Extended.lift c).
Proof. intros t. exists []. cbn. rewrite app_nil_r. auto. Qed.

Lemma adds_bind (A B : Type) (m : Extended.IO A) (k : A -> Extended.IO B) (a b : nat) :
  adds_at_most a m -> (forall x, adds_at_most b (k x)) ->
  adds_at_most (a + b) (Extended.bindIO m k).
Proof.
  intros Hm Hk t. unfold Extended.bindIO.
  destruct (Hm t) as (n1 & E1 & L1). destruct (m t) as [t1 [x|e]]; cbn [fst] in *.
  - destruct (Hk x t1) as (n2 & E2 & L2). exists (n1 ++ n2).
    rewrite E2, E1, <- app_assoc, length_app. split; [reflexivity | lia].
  - exists n1. split; [exact E1 | lia].
Qed.

Lemma adds_weaken (A : Type) (m : Extended.IO A) (a b : nat) :
  a <= b -> adds_at_most a m -> adds_at_most b m.
Proof.
  intros Hab Hm t. destruct (Hm t) as (n & E & L). exists n. split; [exact E | lia].
Qed.

Lemma adds_for_await (A : Type) (body : A -> Extended.IO unit) (cost : A -> nat)
  (l : list A) :
  (forall x, adds_at_most (cost x) (body x)) ->
  adds_at_most (list_sum (map cost l)) (Extended.for_await l body).
Proof.
  intros H. induction l as [|x l IH]; cbn [Extended.for_await map list_sum].
  - intros t. exists []. cbn. rewrite app_nil_r. auto.
  - apply adds_bind; [apply H | intros _; exact IH].
Qed.

Lemma adds_validatePackageJson (plugin : Plugin.t) (repo : Repo.t) :
  adds_at_most 1 (Extended.validatePackageJson network plugin repo).
Proof.
  intros t. unfold Extended.validatePackageJson, Extended.try_catch.
  destruct (same (Repo.type repo) (Some (js "npm"))).
  - exists []. rewrite app_nil_r.
    destruct (negb (same (Repo.branch repo) (Some []))); cbn; auto.
  - unfold Extended.bindIO, Extended.lift, Extended.fetch.
    destruct (check _ _) as [[]|e]; cbn [fst].
    2:{ exists []. rewrite app_nil_r. auto. }
    destruct (Extended.getRawFileUrl repo) as [rawUrl|e]; cbn [fst].
    2:{ exists []. rewrite app_nil_r. auto. }
    exists [rawUrl]. split; [|auto].
    destruct (network (List.length t) rawUrl) as [m|ok st body]; cbn [fst]; [reflexivity|].
    destruct ok; cbn [check negb fst]; [|reflexivity].
    destruct body as [m| |n v]; cbn [fst]; try reflexivity.
    destruct n, v; reflexivity.
Qed.

Lemma length_as_sum (A : Type) (l : list A) :
  list_sum (map (fun _ : A => 1) l) = List.length l.
Proof.
  induction l as [|x l IH]; [reflexivity|].
  change (S (list_sum (map (fun _ : A => 1) l)) = S (List.length l)).
  now rewrite IH.
Qed.

Lemma adds_validatePlugin (plugin : Plugin.t) :
  adds_at_most (List.length (repos_of plugin)) (Extended.validatePlugin network plugin).
Proof.
  intros t. unfold Extended.validatePlugin, Extended.bindIO, Extended.lift.
  destruct (Extended.validateBaseFields plugin) as [[]|e1];
    [|exists []; cbn; rewrite app_nil_r; split; [reflexivity | lia]].
  destruct (validateAuthor plugin) as [[]|e2];
    [|exists []; cbn; rewrite app_nil_r; split; [reflexivity | lia]].
  destruct (validateRepo plugin) as [[]|e3];
    [|exists []; cbn; rewrite app_nil_r; split; [reflexivity | lia]].
  unfold repos_of. destruct (Plugin.repo plugin) as [repos|]; cbn [defined];
    [|exists []; cbn; rewrite app_nil_r; split; [reflexivity | lia]].
  destruct (@adds_for_await _ (Extended.validatePackageJson network plugin)
              (fun _ => 1) repos (adds_validatePackageJson plugin) t)
    as (new & E & L).
  rewrite length_as_sum in L. exists new. split; [|exact L].
  destruct (Extended.for_await repos _ t) as [t' [[]|e]]; exact E.
Qed.

(** X14.  A run of the second generation of [main] only adds requests to
    the trace, and at most one for each repository entry of the
    collection. *)
Theorem requests_bounded_by_repositories (plugins : list Plugin.t) (t : Extended.trace) :
  exists new,
    fst (Extended.main network plugins t) = t ++ new
    /\ List.length new
       <= list_sum (map (fun plugin => List.length (repos_of plugin)) plugins).
Proof.
  assert (H : adds_at_most
                (0 + list_sum (map (fun plugin => List.length (repos_of plugin)) plugins))
                (Extended.main network plugins)).
  { unfold Extended.main. apply adds_bind; [apply adds_lift | intros _].
    apply adds_for_await. apply adds_validatePlugin. }
  exact (H t).
Qed.

(** X12.  For a repository that is not of type [npm] and has a branch,
    [validatePackageJson] issues exactly one request, to the address of
    [getRawFileUrl], and its outcome is decided by the answer: a rejected
    request, a status that is not ok, a body that is no JSON or is [null], a
    missing [name] (reported before a missing [version]), a missing
    [version], each wrapped with the plugin name and the repository URL; it
    passes only on an ok answer whose body has both. *)
Theorem validatePackageJson_remote (plugin : Plugin.t) (repo : Repo.t)
  (rawUrl : jsstring) (t : Extended.trace) :
  Repo.type repo <> Some (js "npm") ->
  truthy (Repo.branch repo) = true ->
  Extended.getRawFileUrl repo = Normal rawUrl ->
  let failure cause :=
    Throw (RepositoryCheckFailed (Plugin.name plugin) (Repo.url repo) cause) in
  let run := Extended.validatePackageJson network plugin repo t in
  fst run = t ++ [rawUrl]
  /\ snd run
     = match network (List.length t) rawUrl with
       | Extended.FetchRejected message => failure (Rejected message)
       | Extended.Response false statusText _ => failure (RemoteFetchFailed statusText)
       | Extended.Response true _ (Extended.JsonRejected message) =>
           failure (Rejected message)
       | Extended.Response true _ Extended.JsonNull => failure TypeError
       | Extended.Response true _ (Extended.JsonValue false _) =>
           failure (RemoteManifestIncomplete "name")
       | Extended.Response true _ (Extended.JsonValue true false) =>
           failure (RemoteManifestIncomplete "version")
       | Extended.Response true _ (Extended.JsonValue true true) => Normal tt
       end.
Proof.
  intros Ht Hb Hraw failure run. subst failure run.
  unfold Extended.validatePackageJson, Extended.try_catch, Extended.bindIO,
    Extended.lift, Extended.fetch.
  apply same_neq in Ht. rewrite Ht, Hb, Hraw. cbn [negb check].
  destruct (network (List.length t) rawUrl) as [m|[|] st [m| |[|] [|]]]; cbn; auto.
Qed.

(** X13.  A repository of type [npm] is never fetched: its check leaves the
    trace of requests as it was, and passes exactly when the branch is the
    empty string. *)
Theorem npm_repository_is_not_fetched (plugin : Plugin.t) (repo : Repo.t)
  (t : Extended.trace) :
  Repo.type repo = Some (js "npm") ->
  fst (Extended.validatePackageJson network plugin repo t) = t
  /\ (snd (Extended.validatePackageJson network plugin repo t) = Normal tt
      <-> Repo.branch repo = Some []).
Proof.
  intros Ht. unfold Extended.validatePackageJson, Extended.try_catch.
  rewrite Ht. change (same (Some (js "npm")) (Some (js "npm"))) with true. cbv iota.
  destruct (same (Repo.branch repo) (Some [])) eqn:E; cbn.
  - apply same_eq in E. split; [reflexivity|]. split; auto.
  - apply same_neq in E. split; [reflexivity|]. split; [discriminate | contradiction].
Qed.

(** The trace of a check that went through. *)
Lemma validatePackageJson_passed (plugin : Plugin.t) (repo : Repo.t)
  (t t' : Extended.trace) :
  Extended.validatePackageJson network plugin repo t = (t', Normal tt) ->
  t' = t ++ requests_of repo.
Proof.
  unfold Extended.validatePackageJson, Extended.try_catch, requests_of.
  destruct (same (Repo.type repo) (Some (js "npm"))).
  - destruct (negb (same (Repo.branch repo) (Some []))); cbn; [discriminate|].
    intros [= <-]. now rewrite app_nil_r.
  - unfold Extended.bindIO, Extended.lift, Extended.fetch.
    destruct (check _ _) as [[]|e]; [|discriminate].
    destruct (Extended.getRawFileUrl repo) as [rawUrl|e]; [|discriminate].
    destruct (network (List.length t) rawUrl) as [m|[|] st [m| |[|] [|]]]; cbn;
      try discriminate.
    intros [= <-]. reflexivity.
Qed.

Lemma for_await_passed (A : Type) (body : A -> Extended.IO unit)
  (requests : A -> list jsstring) (l : list A) (t t' : Extended.trace) :
  (forall x t1 t2, body x t1 = (t2, Normal tt) -> t2 = t1 ++ requests x) ->
  Extended.for_await l body t = (t', Normal tt) ->
  t' = t ++ flat_map requests l
  /\ forall x, In x l -> exists t1 t2, body x t1 = (t2, Normal tt).
Proof.
  intros Hbody. revert t. induction l as [|x l IH]; intros t; cbn [Extended.for_await flat_map].
  - unfold Extended.ret. intros [= <-]. rewrite app_nil_r. split; [reflexivity | intros x []].
  - unfold Extended.bindIO. destruct (body x t) as [t1 [[]|e]] eqn:E; [|discriminate].
    intros H. apply IH in H. destruct H as [-> Hall].
    rewrite (Hbody _ _ _ E), <- app_assoc. split; [reflexivity|].
    intros y [<- | Hy]; eauto.
Qed.

Lemma validatePlugin_passed (plugin : Plugin.t) (t t' : Extended.trace) :
  Extended.validatePlugin network plugin t = (t', Normal tt) ->
  t' = t ++ flat_map requests_of (repos_of plugin)
  /\ Basic.validatePlugin plugin = Normal tt.
Proof.
  unfold Extended.validatePlugin, Extended.bindIO, Extended.lift, Basic.validatePlugin.
  destruct (Extended.validateBaseFields plugin) as [[]|e1] eqn:B; [|discriminate].
  destruct (validateAuthor plugin) as [[]|e2]; [|discriminate].
  destruct (validateRepo plugin) as [[]|e3]; [|discriminate].
  unfold repos_of. destruct (Plugin.repo plugin) as [repos|]; cbn [defined]; [|discriminate].
  destruct (Extended.for_await repos _ t) as [t1 [[]|e]] eqn:F; [|discriminate].
  intros [= <- V]. split.
  - apply (for_await_passed (Extended.validatePackageJson network plugin) requests_of) in F.
    + apply F.
    + intros repo u1 u2. apply validatePackageJson_passed.
  - apply Extended_base_normal in B. destruct B as [B _].
    rewrite (proj2 (Basic_base_normal plugin) B). exact V.
Qed.

(** X15.  When the second generation of [main] succeeds, the requests it has
    issued are exactly the addresses of [package.json] of the repositories
    that are not of type [npm], one each, in the order of the records and of
    their repositories. *)
Theorem successful_run_requests (plugins : list Plugin.t) (t t' : Extended.trace) :
  Extended.main network plugins t = (t', Normal tt) ->
  t' = t ++ flat_map (fun plugin => flat_map requests_of (repos_of plugin)) plugins.
Proof.
  unfold Extended.main, Extended.bindIO, Extended.lift.
  destruct (validateUniquePackages plugins) as [[]|e]; [|discriminate].
  intros H.
  apply (for_await_passed (Extended.validatePlugin network)
           (fun plugin => flat_map requests_of (repos_of plugin))) in H.
  - apply H.
  - intros plugin t1 t2 E. apply validatePlugin_passed in E. apply E.
Qed.

(** X16.  The second generation is the stricter one: a collection it
    accepts, whatever the network answered, is accepted by the first
    generation. *)
Theorem second_generation_is_stricter (plugins : list Plugin.t) (t t' : Extended.trace) :
  Extended.main network plugins t = (t', Normal tt) ->
  Basic.main plugins = Normal tt.
Proof.
  unfold Extended.main, Extended.bindIO, Extended.lift, Basic.main.
  destruct (validateUniquePackages plugins) as [[]|e]; [|discriminate].
  intros H. cbn [bind].
  apply (for_await_passed (Extended.validatePlugin network)
           (fun plugin => flat_map requests_of (repos_of plugin))) in H.
  - apply for_of_pass. intros plugin Hp.
    destruct (proj2 H plugin Hp) as (t1 & t2 & E).
    apply validatePlugin_passed in E. apply E.
  - intros plugin t1 t2 E. apply validatePlugin_passed in E. apply E.
Qed.


End Traces.

(* ================================================================= *)
(** * The further properties at concrete registries *)

(** X2 at the collection of the fail-fast example. *)
Lemma first_duplicate_witness :
  validateUniquePackages ([npm_example; bad_time_example] ++ npm_example :: [])
  = Throw (DuplicateName (Plugin.name npm_example)).
Proof.
  apply validateUniquePackages_first_duplicate.
  - constructor.
    + intros [H | []]. vm_compute in H. discriminate H.
    + constructor; [intros [] | constructor].
  - left. reflexivity.
Defined.

(** X3 at a record whose second author has no home page. *)
Lemma validateAuthor_witness :
  @validateAuthor ascii_runtime second_author_without_home
  = Throw (InvalidAuthorHomepage (Plugin.name second_author_without_home)).
Proof.
  apply (proj2 (@validateAuthor_outcome ascii_runtime second_author_without_home)
           [Author.mk (Some (js "shijin")) (Some (js "https://github.com/sj817"))]
           (Author.mk (Some (js "other")) None) []).
  - reflexivity.
  - intros a [<- | []]. reflexivity.
  - reflexivity.
Defined.

(** X4 at a record whose second repository is of kind [svn]. *)
Lemma validateRepo_witness :
  @validateRepo ascii_runtime second_repo_of_unknown_kind
  = Throw (InvalidRepoKind (Plugin.name second_repo_of_unknown_kind) (Some (js "svn"))).
Proof.
  apply (proj2 (@validateRepo_outcome ascii_runtime second_repo_of_unknown_kind)
           [github_entry]
           (Repo.mk (Some (js "svn")) (Some (js "https://example.com/repo")) None) []).
  - reflexivity.
  - intros r [<- | []]. reflexivity.
  - reflexivity.
Defined.

(** X5 at a list of files whose second entry is no URL. *)
Lemma validateAppPlugin_witness :
  @validateAppPlugin ascii_runtime second_file_invalid
  = Throw (InvalidFileUrl (Plugin.name second_file_invalid) (js "not a url")).
Proof.
  apply (proj2 (@validateAppPlugin_outcome ascii_runtime second_file_invalid)
           [js "https://example.com/plugin/index.js"] (js "not a url") []).
  - reflexivity.
  - intros u [<- | []]. reflexivity.
  - reflexivity.
Defined.


(** X10 at a collection whose second record has an invalid time stamp. *)
Lemma Basic_main_outcome_witness :
  @Basic.main ascii_runtime [npm_example; bad_time_example]
  = Throw (InvalidTimestamp (Plugin.name bad_time_example)).
Proof.
  apply (proj2 (@Basic_main_outcome ascii_runtime [npm_example; bad_time_example])
           [npm_example] bad_time_example []).
  - reflexivity.
  - constructor.
    + intros [H | []]. vm_compute in H. discriminate H.
    + constructor; [intros [] | constructor].
  - intros p [<- | []]. reflexivity.
  - reflexivity.
Defined.

(** X11 at the repository of the README. *)
Lemma getRawFileUrl_witness :
  Extended.getRawFileUrl github_entry
  = Normal (js "https://raw.githubusercontent.com" ++ js "/karinjs/karin-plugin-basic"
            ++ package_json (Some (js "main"))).
Proof.
  apply (proj1 (proj2 (getRawFileUrl_outcome github_entry))
           (js "/karinjs/karin-plugin-basic")); reflexivity.
Defined.

(** X12 at the repository of the README, on a network that answers. *)
Lemma validatePackageJson_remote_witness :
  fst (Extended.validatePackageJson network_ok npm_example github_entry [])
  = [] ++ [js "https://raw.githubusercontent.com/karinjs/karin-plugin-basic/main/package.json"]
  /\ snd (Extended.validatePackageJson network_ok npm_example github_entry [])
     = Normal tt.
Proof.
  apply (@validatePackageJson_remote network_ok npm_example github_entry
           (js "https://raw.githubusercontent.com/karinjs/karin-plugin-basic/main/package.json")
           []).
  - intros H. vm_compute in H. discriminate H.
  - reflexivity.
  - reflexivity.
Defined.

(** X13 at a repository on the registry of npm. *)
Lemma npm_repository_witness :
  fst (Extended.validatePackageJson network_ok npm_example npm_registry_entry []) = []
  /\ (snd (Extended.validatePackageJson network_ok npm_example npm_registry_entry [])
        = Normal tt
      <-> Repo.branch npm_registry_entry = Some []).
Proof.
  apply (@npm_repository_is_not_fetched network_ok npm_example npm_registry_entry []).
  reflexivity.
Defined.

(** X15 and X16 at the first example of the README. *)
Lemma successful_run_witness :
  [js "https://raw.githubusercontent.com/karinjs/karin-plugin-basic/main/package.json"]
  = [] ++ flat_map (fun plugin => flat_map requests_of (repos_of plugin)) [npm_example].
Proof.
  apply (@successful_run_requests ascii_runtime network_ok [npm_example] []).
  vm_compute. reflexivity.
Defined.

Lemma second_generation_witness :
  @Basic.main ascii_runtime [npm_example] = Normal tt.
Proof.
  apply (@second_generation_is_stricter ascii_runtime network_ok [npm_example] []
           [js "https://raw.githubusercontent.com/karinjs/karin-plugin-basic/main/package.json"]).
  vm_compute. reflexivity.
Defined.


(** X18 at two valid records, in both orders. *)
Lemma order_independent_witness :
  @Basic.main ascii_runtime [npm_example; other_npm_example] = Normal tt
  <-> @Basic.main ascii_runtime [other_npm_example; npm_example] = Normal tt.
Proof.
  apply (@Basic_main_order_independent ascii_runtime).
  apply perm_swap.
Defined.
